(** * wrapt.wrappers: call-interception proxies

    A shallow embedding of [src/wrapt/wrappers.py] and the properties of
    its proxies: attribute forwarding, identity (equality, hashing, the
    wrapped-chain pointer), binding and the argument shape handed to the
    interception callback.

    The host object model is embedded as far as the wrappers use it:
    - a heap of objects addressed by location; an object is either a host
      object with the default object protocol (attributes kept in a
      dictionary, identity equality), or an instance of one of the wrapper
      classes, that is its class and its instance dictionary;
    - attribute reads follow the host's lookup order on a wrapper instance:
      properties of the type, the instance dictionary, the other members of
      the type, and last the [__getattr__] hook;
    - every host-level recursion ([getattr], [setattr], [==], [hash],
      binding) is bounded by a depth budget; exhausting it raises
      [RecursionError], as the host does. *)

From stdpp Require Import gmap strings list fin_maps.
From Stdlib Require Import ZArith.

Open Scope string_scope.

(** ** Exceptions and outcomes *)

Inductive exn := AttributeError | IndexError | TypeError | RecursionError.

Inductive outcome (A : Type) :=
| Ok (a : A)
| Raise (e : exn).
Arguments Ok {A} a.
Arguments Raise {A} e.

#[global] Instance outcome_ret : MRet outcome := fun _ a => Ok a.
#[global] Instance outcome_bind : MBind outcome := fun _ _ f m =>
  match m with
  | Ok a => f a
  | Raise e => Raise e
  end.

(** [try: m except AttributeError: handler] *)
Definition except_AttributeError {A} (m handler : outcome A) : outcome A :=
  match m with
  | Raise AttributeError => handler
  | _ => m
  end.

(** ** Values and objects *)

Definition loc := positive.

(** The classes of this file that are instantiated.  [WrapperBase] itself
    is the common base and is not instantiated on its own. *)
Inductive wrapper_class :=
| BoundGenericWrapper
| GenericWrapper
| FunctionWrapper
| BoundMethodWrapper
| MethodWrapper.

Inductive pytype :=
| TNoneType
| TNotImplementedType
| TBool
| TInt
| TStr
| TType
| TTuple
| TMember
| TClassMethod              (* classmethod, or a subclass of it *)
| TStaticMethod             (* staticmethod, or a subclass of it *)
| TOther (name : string)    (* any other host class: functions, bound
                               methods, user classes, ... *)
| TWrapper (c : wrapper_class).

Inductive value :=
| VNone
| VNotImplemented
| VBool (b : bool)
| VInt (z : Z)
| VStr (s : string)
| VType (t : pytype)
| VRef (l : loc)
| VStrTuple (items : list string)      (* a tuple of strings *)
| VMember (l : loc) (name : string).  (* a member of the type of the object
                                         at [l], bound to that object; its
                                         value is kept opaque *)

Inductive object :=
| Plain (t : pytype) (attrs : gmap string value)
| Proxy (c : wrapper_class) (dict : gmap string value).

#[global] Instance exn_eq_dec : EqDecision exn.
Proof. solve_decision. Defined.
#[global] Instance wrapper_class_eq_dec : EqDecision wrapper_class.
Proof. solve_decision. Defined.
#[global] Instance pytype_eq_dec : EqDecision pytype.
Proof. solve_decision. Defined.
#[global] Instance value_eq_dec : EqDecision value.
Proof. solve_decision. Defined.

Definition is_None (v : value) : bool :=
  match v with VNone => true | _ => false end.

Definition is_NotImplemented (v : value) : bool :=
  match v with VNotImplemented => true | _ => false end.

(** [type(v)].  A reference outside the heap stands for a host object the
    model knows nothing about. *)
Definition type_of (h : gmap loc object) (v : value) : pytype :=
  match v with
  | VNone => TNoneType
  | VNotImplemented => TNotImplementedType
  | VBool _ => TBool
  | VInt _ => TInt
  | VStr _ => TStr
  | VType _ => TType
  | VStrTuple _ => TTuple
  | VMember _ _ => TMember
  | VRef l =>
      match h !! l with
      | Some (Plain t _) => t
      | Some (Proxy c _) => TWrapper c
      | None => TOther EmptyString
      end
  end.

Definition proxy_at (h : gmap loc object) (v : value) : option (loc * wrapper_class * gmap string value) :=
  match v with
  | VRef l =>
      match h !! l with
      | Some (Proxy c d) => Some (l, c, d)
      | _ => None
      end
  | _ => None
  end.

Definition is_proxy (h : gmap loc object) (v : value) : bool :=
  match proxy_at h v with Some _ => true | None => false end.

(** ** Members of the wrapper types *)

(** The names the metaclass and [WrapperBase] define as properties.  A
    property is a data descriptor: it is consulted before the instance
    dictionary. *)
Definition is_property (name : string) : bool :=
  bool_decide (name ∈ ["__module__"; "__doc__"; "__class__";
                       "__annotations__"; "__wrapped__"]).

(** The other names found on the type of a wrapper instance: those this
    file defines, per class, and those inherited from [object]. *)
Definition WrapperBase_members : list string :=
  ["__init__"; "__setattr__"; "__getattr__"; "__self__"; "__dir__";
   "__eq__"; "__ne__"; "__hash__"; "__repr__"; "__enter__"; "__exit__";
   "__iter__"].

Definition object_members : list string :=
  ["__delattr__"; "__format__"; "__getattribute__"; "__getstate__"; "__new__";
   "__reduce__"; "__reduce_ex__"; "__sizeof__"; "__str__";
   "__subclasshook__"; "__init_subclass__"; "__lt__"; "__le__"; "__gt__";
   "__ge__"; "__dict__"; "__weakref__"].

Definition class_members (c : wrapper_class) : list string :=
  match c with
  | BoundGenericWrapper => ["__call__"]
  | GenericWrapper => ["__get__"; "__call__"]
  | FunctionWrapper => ["__call__"]
  | BoundMethodWrapper => ["__call__"]
  | MethodWrapper => ["__get__"]
  end.

(** The class attribute [WRAPPER_ARGLIST]: the parameters the class hands
    to the interception callback by position. *)
Definition WRAPPER_ARGLIST (c : wrapper_class) : option (list string) :=
  match c with
  | GenericWrapper => Some ["wrapped"; "instance"; "args"; "kwargs"]
  | FunctionWrapper => Some ["wrapped"; "args"; "kwargs"]
  | MethodWrapper => Some ["wrapped"; "instance"; "args"; "kwargs"]
  | BoundGenericWrapper | BoundMethodWrapper => None
  end.

Definition type_defines (c : wrapper_class) (name : string) : bool :=
  bool_decide (name ∈ (class_members c ++ WrapperBase_members ++ object_members)%list).

Abbreviation heap := (gmap loc object).

(** ** The base classes *)

Module WrapperOverrideMethods.
Section methods.
Variable getattr : heap → value → string → outcome value.
Variable setattr : heap → value → string → value → outcome heap.

Definition __module__ (h : heap) (self : value) : outcome value :=
  w ← getattr h self "_self_wrapped"; getattr h w "__module__".

Definition __module___setter (h : heap) (self value : value) : outcome heap :=
  w ← getattr h self "_self_wrapped"; setattr h w "__module__" value.

Definition __doc__ (h : heap) (self : value) : outcome value :=
  w ← getattr h self "_self_wrapped"; getattr h w "__doc__".

Definition __doc___setter (h : heap) (self value : value) : outcome heap :=
  w ← getattr h self "_self_wrapped"; setattr h w "__doc__" value.
End methods.
End WrapperOverrideMethods.

(** [bool(v)], as [not result] takes it.  Objects are true unless their
    type says otherwise; the wrapper types define neither [__bool__] nor
    [__len__]. *)
Definition truthy (v : value) : bool :=
  match v with
  | VNone => false
  | VBool b => b
  | VInt z => negb (Z.eqb z 0)
  | VStr s => negb (String.eqb s EmptyString)
  | VStrTuple items => negb (bool_decide (items = []))
  | VNotImplemented | VType _ | VRef _ | VMember _ _ => true
  end.

(** The methods of [WrapperBase] the properties below are about.  The
    remaining ones ([__self__], [__dir__], [__repr__], [__enter__],
    [__exit__], [__iter__]) only show as members of the type. *)
Module WrapperBase.
Section methods.
(** The host operations the methods go through, at the depth budget the
    caller has left: [getattr], [setattr], [==] and [hash]. *)
Variable getattr : heap → value → string → outcome value.
Variable setattr : heap → value → string → value → outcome heap.
Variable eq : heap → value → value → outcome value.
Variable hash : heap → value → outcome Z.

Definition __getattr__ (h : heap) (self : value) (name : string) : outcome value :=
  w ← getattr h self "_self_wrapped"; getattr h w name.

Definition __class__ (h : heap) (self : value) : outcome value :=
  w ← getattr h self "_self_wrapped"; getattr h w "__class__".

Definition __class___setter (h : heap) (self value : value) : outcome heap :=
  w ← getattr h self "_self_wrapped"; setattr h w "__class__" value.

(* the getter reads the attribute spelled [__anotations__] *)
Definition __annotations__ (h : heap) (self : value) : outcome value :=
  w ← getattr h self "_self_wrapped"; getattr h w "__anotations__".

Definition __annotations___setter (h : heap) (self value : value) : outcome heap :=
  w ← getattr h self "_self_wrapped"; setattr h w "__annotations__" value.

Definition __wrapped__ (h : heap) (self : value) : outcome value :=
  getattr h self "_self_target".

Definition __wrapped___setter (h : heap) (self value : value) : outcome heap :=
  w ← getattr h self "_self_wrapped"; setattr h w "__wrapped__" value.

(** The getter and the setter a property name resolves to on a wrapper
    type. *)
Definition property_get (name : string) (h : heap) (self : value) : outcome value :=
  if decide (name = "__module__") then WrapperOverrideMethods.__module__ getattr h self
  else if decide (name = "__doc__") then WrapperOverrideMethods.__doc__ getattr h self
  else if decide (name = "__class__") then __class__ h self
  else if decide (name = "__annotations__") then __annotations__ h self
  else __wrapped__ h self.

Definition property_set (name : string) (h : heap) (self value : value) : outcome heap :=
  if decide (name = "__module__") then
    WrapperOverrideMethods.__module___setter getattr setattr h self value
  else if decide (name = "__doc__") then
    WrapperOverrideMethods.__doc___setter getattr setattr h self value
  else if decide (name = "__class__") then __class___setter h self value
  else if decide (name = "__annotations__") then __annotations___setter h self value
  else __wrapped___setter h self value.

(** [object.__getattribute__] on a wrapper instance: a property of the
    type, else the instance dictionary, else another member of the type. *)
Definition object___getattribute__ (h : heap) (l : loc) (c : wrapper_class)
    (d : gmap string value) (name : string) : outcome value :=
  if is_property name then property_get name h (VRef l)
  else match d !! name with
       | Some v => Ok v
       | None =>
           if decide (name = "WRAPPER_ARGLIST") then
             match WRAPPER_ARGLIST c with
             | Some items => Ok (VStrTuple items)
             | None => Raise AttributeError
             end
           else if type_defines c name then Ok (VMember l name)
           else Raise AttributeError
       end.

(** [object.__setattr__] on a wrapper instance: the setter of a property
    of the type, else a store into the instance dictionary. *)
Definition object___setattr__ (h : heap) (self : value) (name : string)
    (value : value) : outcome heap :=
  match proxy_at h self with
  | Some (l, c, d) =>
      if is_property name then property_set name h self value
      else Ok (<[l := Proxy c (<[name := value]> d)]> h)
  | None => Raise TypeError
  end.

Definition __setattr__ (h : heap) (self : value) (name : string)
    (value : value) : outcome heap :=
  if String.prefix "_self_" name then
    object___setattr__ h self name value
  else
    w ← getattr h self "_self_wrapped"; setattr h w name value.

(** [adapter] is [VNone] when the caller gives none. *)
Definition __init__ (h : heap) (self wrapped wrapper adapter params : value)
    : outcome heap :=
  h ← setattr h self "_self_wrapped" wrapped;
  h ← setattr h self "_self_wrapper" wrapper;
  h ← setattr h self "_self_params" params;
  h ← (if is_None adapter then
         except_AttributeError
           (t ← getattr h wrapped "__wrapped__"; setattr h self "_self_target" t)
           (setattr h self "_self_target" wrapped)
       else
         setattr h self "_self_target" adapter);
  h ← except_AttributeError
        (q ← getattr h wrapped "__qualname__";
         object___setattr__ h self "__qualname__" q)
        (Ok h);
  except_AttributeError
    (n ← getattr h wrapped "__name__";
     object___setattr__ h self "__name__" n)
    (Ok h).

Definition __eq__ (h : heap) (self other : value) : outcome value :=
  t ← getattr h self "_self_target"; eq h t other.

(** [self___eq__] is what [self.__eq__] resolves to: [__eq__] above for
    the classes of this file, none of which overrides it. *)
Definition __ne__ (self___eq__ : heap → value → value → outcome value)
    (h : heap) (self other : value) : outcome value :=
  result ← self___eq__ h self other;
  if is_NotImplemented result then Ok result
  else Ok (VBool (negb (truthy result))).

Definition __hash__ (h : heap) (self : value) : outcome Z :=
  t ← getattr h self "_self_target"; hash h t.

(** [str] is the host's [str()] at the depth budget left, [class_name] is
    [type(self).__name__]; the template is ['<%s for %s>']. *)
Definition __repr__ (str : heap → value → outcome string) (class_name : string)
    (h : heap) (self : value) : outcome string :=
  t ← getattr h self "_self_target";
  s ← str h t;
  Ok ("<" ++ class_name ++ " for " ++ s ++ ">").
End methods.
End WrapperBase.

(** ** The host's attribute protocol *)

(** Attribute read on a host object with the default protocol. *)
Definition host_getattr (t : pytype) (attrs : gmap string value) (name : string) : outcome value :=
  if decide (name = "__class__") then Ok (VType t)
  else match attrs !! name with
       | Some v => Ok v
       | None => Raise AttributeError
       end.

(** [getattr(v, name)]: on a wrapper instance [object.__getattribute__]
    and, when that raises [AttributeError], the [__getattr__] hook.  Of the
    attributes of a value that is not a heap object only [__class__] is
    modelled. *)
Fixpoint py_getattr (fuel : nat) (h : heap) (v : value) (name : string) : outcome value :=
  match fuel with
  | O => Raise RecursionError
  | S n =>
      match v with
      | VRef l =>
          match h !! l with
          | Some (Proxy c d) =>
              except_AttributeError
                (WrapperBase.object___getattribute__ (py_getattr n) h l c d name)
                (WrapperBase.__getattr__ (py_getattr n) h v name)
          | Some (Plain t attrs) => host_getattr t attrs name
          | None => Raise AttributeError
          end
      | _ => if decide (name = "__class__") then Ok (VType (type_of h v))
             else Raise AttributeError
      end
  end.

(** [setattr(v, name, value)].  A host object is one with a writable
    attribute dictionary (a function, an instance of an ordinary class): it
    stores the attribute, and its class cannot be reassigned.  Objects that
    refuse attribute writes (bound methods, built-ins) and attributes the
    host type-checks are not modelled. *)
Fixpoint py_setattr (fuel : nat) (h : heap) (v : value) (name : string)
    (val : value) : outcome heap :=
  match fuel with
  | O => Raise RecursionError
  | S n =>
      match v with
      | VRef l =>
          match h !! l with
          | Some (Proxy c d) =>
              WrapperBase.__setattr__ (py_getattr n) (py_setattr n) h v name val
          | Some (Plain t attrs) =>
              if decide (name = "__class__") then Raise TypeError
              else Ok (<[l := Plain t (<[name := val]> attrs)]> h)
          | None => Raise AttributeError
          end
      | _ => Raise AttributeError
      end
  end.

(** ** Equality and hashing *)

Definition as_int (v : value) : option Z :=
  match v with
  | VBool b => Some (if b then 1 else 0)%Z
  | VInt z => Some z
  | _ => None
  end.

(** [type(v).__eq__(v, w)] for a value that is not a wrapper instance:
    numbers and strings compare by content within their kind, every other
    value is equal to itself and leaves the rest undecided. *)
Definition host___eq__ (v w : value) : value :=
  match as_int v, as_int w with
  | Some a, Some b => VBool (bool_decide (a = b))
  | _, _ =>
      match v, w with
      | VStr a, VStr b => VBool (bool_decide (a = b))
      | VStrTuple a, VStrTuple b => VBool (bool_decide (a = b))
      | _, _ => if decide (v = w) then VBool true else VNotImplemented
      end
  end.

Definition type___eq__ (getattr : heap → value → string → outcome value)
    (eq : heap → value → value → outcome value)
    (h : heap) (v w : value) : outcome value :=
  if is_proxy h v then WrapperBase.__eq__ getattr eq h v w
  else Ok (host___eq__ v w).

(** [v == w]: the [__eq__] of the left operand, then the reflected one,
    then identity.  (The host tries the reflected method first when the
    right type is a proper subclass of the left one; among the values here
    that only concerns [bool] and [int], where both orders agree.) *)
Fixpoint py_eq (fuel : nat) (h : heap) (v w : value) : outcome value :=
  match fuel with
  | O => Raise RecursionError
  | S n =>
      r ← type___eq__ (py_getattr n) (py_eq n) h v w;
      if negb (is_NotImplemented r) then Ok r
      else
        r ← type___eq__ (py_getattr n) (py_eq n) h w v;
        if negb (is_NotImplemented r) then Ok r
        else Ok (VBool (bool_decide (v = w)))
  end.

(** [v != w] through [__ne__] of a wrapper instance. *)
Definition proxy_ne (fuel : nat) (h : heap) (self other : value) : outcome value :=
  WrapperBase.__ne__ (WrapperBase.__eq__ (py_getattr fuel) (py_eq fuel)) h self other.

(** ** Calls to the interception callback *)

Inductive argument :=
| AObject (v : value)
| APartial (func arg : value)                (* functools.partial(func, arg) *)
| ATuple (items : list value)                (* the tuple of positional arguments *)
| ADict (items : list (string * value)).     (* the dict of keyword arguments *)

(** A call of [callee] with the [positional] arguments and with the
    mapping [keywords] unpacked into keyword arguments.  The result of a
    [__call__] that ends in this call is whatever the callee returns or
    raises. *)
Record call := Call {
  callee : value;
  positional : list argument;
  keywords : value
}.

Definition is_classmethod_or_staticmethod (t : pytype) : bool :=
  match t with
  | TClassMethod | TStaticMethod => true
  | _ => false
  end.

(** [isinstance(v, (classmethod, staticmethod))]: the type of [v], then
    what [v.__class__] reports. *)
Definition isinstance_classmethod_staticmethod
    (getattr : heap → value → string → outcome value)
    (h : heap) (v : value) : outcome bool :=
  if is_classmethod_or_staticmethod (type_of h v) then Ok true
  else match getattr h v "__class__" with
       | Ok (VType t) => Ok (is_classmethod_or_staticmethod t)
       | Ok _ => Ok false
       | Raise AttributeError => Ok false
       | Raise e => Raise e
       end.

(** A new, empty instance of a wrapper class. *)
Definition fresh_loc (h : heap) : loc := fresh (dom h).

Definition allocate (h : heap) (c : wrapper_class) : heap * value :=
  (<[fresh_loc h := Proxy c ∅]> h, VRef (fresh_loc h)).

Module BoundGenericWrapper.
Section methods.
Variable getattr : heap → value → string → outcome value.
Variable setattr : heap → value → string → value → outcome heap.

Definition __init__ (h : heap) (self parent wrapped instance wrapper adapter params : value)
    : outcome heap :=
  h ← setattr h self "_self_parent" parent;
  h ← setattr h self "_self_instance" instance;
  WrapperBase.__init__ getattr setattr h self wrapped wrapper adapter params.

Definition __call__ (h : heap) (self : value) (args : list value)
    (kwargs : list (string * value)) : outcome call :=
  wrapped ← getattr h self "_self_wrapped";
  instance ← getattr h self "_self_instance";
  receiver ← getattr h self "_self_instance";
  '(wrapped, instance, args) ←
    (if is_None receiver then
       parent ← getattr h self "_self_parent";
       original ← getattr h parent "_self_wrapped";
       declared ← isinstance_classmethod_staticmethod getattr h original;
       if negb declared then
         match args with
         | [] => Raise IndexError
         | first :: rest => Ok (APartial wrapped first, first, rest)
         end
       else Ok (AObject wrapped, instance, args)
     else Ok (AObject wrapped, instance, args));
  wrapper ← getattr h self "_self_wrapper";
  params ← getattr h self "_self_params";
  Ok (Call wrapper [wrapped; AObject instance; ATuple args; ADict kwargs] params).
End methods.
End BoundGenericWrapper.

Module GenericWrapper.
Section methods.
Variable getattr : heap → value → string → outcome value.
Variable setattr : heap → value → string → value → outcome heap.
(** [descr_get h w instance owner] is [w.__get__(instance, owner)]. *)
Variable descr_get : heap → value → value → value → outcome (heap * value).

Definition __get__ (h : heap) (self instance owner : value) : outcome (heap * value) :=
  w ← getattr h self "_self_wrapped";
  '(h, descriptor) ← descr_get h w instance owner;
  wrapper ← getattr h self "_self_wrapper";
  adapter ← getattr h self "_self_target";
  params ← getattr h self "_self_params";
  let '(h, bound) := allocate h BoundGenericWrapper in
  h ← BoundGenericWrapper.__init__ getattr setattr h bound self descriptor
        instance wrapper adapter params;
  Ok (h, bound).

Definition __call__ (h : heap) (self : value) (args : list value)
    (kwargs : list (string * value)) : outcome call :=
  wrapper ← getattr h self "_self_wrapper";
  wrapped ← getattr h self "_self_wrapped";
  params ← getattr h self "_self_params";
  Ok (Call wrapper [AObject wrapped; AObject VNone; ATuple args; ADict kwargs] params).
End methods.
End GenericWrapper.

Module FunctionWrapper.
Section methods.
Variable getattr : heap → value → string → outcome value.

Definition __call__ (h : heap) (self : value) (args : list value)
    (kwargs : list (string * value)) : outcome call :=
  wrapper ← getattr h self "_self_wrapper";
  wrapped ← getattr h self "_self_wrapped";
  params ← getattr h self "_self_params";
  Ok (Call wrapper [AObject wrapped; ATuple args; ADict kwargs] params).
End methods.
End FunctionWrapper.

Module BoundMethodWrapper.
Section methods.
Variable getattr : heap → value → string → outcome value.
Variable setattr : heap → value → string → value → outcome heap.

Definition __init__ (h : heap) (self wrapped instance wrapper adapter params : value)
    : outcome heap :=
  h ← setattr h self "_self_instance" instance;
  WrapperBase.__init__ getattr setattr h self wrapped wrapper adapter params.

Definition __call__ (h : heap) (self : value) (args : list value)
    (kwargs : list (string * value)) : outcome call :=
  receiver ← getattr h self "_self_instance";
  if is_None receiver then
    match args with
    | [] => Raise IndexError
    | instance :: args =>
        w ← getattr h self "_self_wrapped";
        let wrapped := APartial w instance in
        wrapper ← getattr h self "_self_wrapper";
        params ← getattr h self "_self_params";
        Ok (Call wrapper [wrapped; AObject instance; ATuple args; ADict kwargs] params)
    end
  else
    wrapper ← getattr h self "_self_wrapper";
    wrapped ← getattr h self "_self_wrapped";
    instance ← getattr h self "_self_instance";
    params ← getattr h self "_self_params";
    Ok (Call wrapper [AObject wrapped; AObject instance; ATuple args; ADict kwargs] params).
End methods.
End BoundMethodWrapper.

Module MethodWrapper.
Section methods.
Variable getattr : heap → value → string → outcome value.
Variable setattr : heap → value → string → value → outcome heap.
Variable descr_get : heap → value → value → value → outcome (heap * value).

Definition __get__ (h : heap) (self instance owner : value) : outcome (heap * value) :=
  w ← getattr h self "_self_wrapped";
  '(h, descriptor) ← descr_get h w instance owner;
  wrapper ← getattr h self "_self_wrapper";
  adapter ← getattr h self "_self_target";
  params ← getattr h self "_self_params";
  let '(h, bound) := allocate h BoundMethodWrapper in
  h ← BoundMethodWrapper.__init__ getattr setattr h bound descriptor
        instance wrapper adapter params;
  Ok (h, bound).
End methods.
End MethodWrapper.

(** ** Hashing, binding, construction and calls at the host level *)

Section host.
(** What the host gives for values that are not wrapper instances: their
    hash, and the result of their own binding mechanism,
    [w.__get__(instance, owner)], which may allocate. *)
Variable host_hash : value → Z.
Variable host_bind : heap → value → value → value → outcome (heap * value).

(** [hash(v)] *)
Fixpoint py_hash (fuel : nat) (h : heap) (v : value) : outcome Z :=
  match fuel with
  | O => Raise RecursionError
  | S n =>
      if is_proxy h v then WrapperBase.__hash__ (py_getattr n) (py_hash n) h v
      else Ok (host_hash v)
  end.

(** [w.__get__(instance, owner)].  [GenericWrapper] and [MethodWrapper]
    define [__get__]; on an instance of another wrapper class the lookup
    of [__get__] falls to the [__getattr__] hook and so continues on the
    wrapped object.  (An instance dictionary never holds [__get__]:
    [__setattr__] stores reserved names only.) *)
Fixpoint py_descr_get (fuel : nat) (h : heap) (w instance owner : value)
    : outcome (heap * value) :=
  match fuel with
  | O => Raise RecursionError
  | S n =>
      match proxy_at h w with
      | Some (_, GenericWrapper, _) =>
          GenericWrapper.__get__ (py_getattr n) (py_setattr n) (py_descr_get n)
            h w instance owner
      | Some (_, MethodWrapper, _) =>
          MethodWrapper.__get__ (py_getattr n) (py_setattr n) (py_descr_get n)
            h w instance owner
      | Some _ =>
          t ← py_getattr n h w "_self_wrapped"; py_descr_get n h t instance owner
      | None => host_bind h w instance owner
      end
  end.
End host.

(** [c(wrapped, wrapper, adapter, params)] for the three classes that
    inherit [WrapperBase.__init__]: allocation, then initialisation. *)
Definition construct (c : wrapper_class) (fuel : nat) (h : heap)
    (wrapped wrapper adapter params : value) : outcome (heap * value) :=
  let '(h, self) := allocate h c in
  h ← WrapperBase.__init__ (py_getattr fuel) (py_setattr fuel) h self
        wrapped wrapper adapter params;
  Ok (h, self).


(** ** A small world for the examples

    Two functions [f] and [g], an interception callback, a configuration
    mapping, a class method, an instance and its class, a function that
    carries an attribute [__anotations__] next to its annotations, and a
    function that carries a wrapped-chain pointer to [g], as a decorator
    built on [functools.wraps] leaves it. *)

Definition f_loc : loc := 1%positive.
Definition g_loc : loc := 2%positive.
Definition callback_loc : loc := 3%positive.
Definition config_loc : loc := 4%positive.
Definition classmethod_loc : loc := 5%positive.
Definition instance_loc : loc := 6%positive.
Definition owner_loc : loc := 7%positive.
Definition annotated_loc : loc := 8%positive.
Definition decorated_loc : loc := 9%positive.

Definition world : heap :=
  {[ f_loc := Plain (TOther "function")
                {[ "__name__" := VStr "f"; "__annotations__" := VRef config_loc ]};
     g_loc := Plain (TOther "function") {[ "__name__" := VStr "g" ]};
     callback_loc := Plain (TOther "function") ∅;
     config_loc := Plain (TOther "dict") ∅;
     classmethod_loc := Plain TClassMethod ∅;
     instance_loc := Plain (TOther "C") ∅;
     owner_loc := Plain (TOther "type") ∅;
     annotated_loc := Plain (TOther "function")
                        {[ "__anotations__" := VStr "note";
                           "__annotations__" := VRef config_loc ]};
     decorated_loc := Plain (TOther "function") {[ "__wrapped__" := VRef g_loc ]} ]}.

(** Binding as the host does it for a function reached through the owning
    type, and for a class or static method: no new object, the underlying
    callable is handed back. *)
Definition bind_to_self (h : heap) (w instance owner : value) : outcome (heap * value) :=
  Ok (h, w).

Definition hash_by_identity (v : value) : Z :=
  match v with
  | VRef l => Z.pos l
  | _ => 0%Z
  end.

Definition heap_of (r : outcome (heap * value)) : heap :=
  match r with Ok (h, _) => h | Raise _ => ∅ end.

Definition value_of (r : outcome (heap * value)) : value :=
  match r with Ok (_, v) => v | Raise _ => VNone end.

(** Proxies over the world: a generic proxy of [f] and what its binding
    through the owning type gives, the same for a method proxy and for a
    generic proxy of the class method, and a plain-function proxy. *)
Definition depth : nat := 6.

Definition generic_f : outcome (heap * value) :=
  construct GenericWrapper depth world (VRef f_loc) (VRef callback_loc) VNone (VRef config_loc).

Definition bound_generic_f : outcome (heap * value) :=
  py_descr_get bind_to_self depth (heap_of generic_f) (value_of generic_f)
    VNone (VRef owner_loc).





Definition function_f : outcome (heap * value) :=
  construct FunctionWrapper depth world (VRef f_loc) (VRef callback_loc) VNone (VRef config_loc).

Definition function_annotated : outcome (heap * value) :=
  construct FunctionWrapper depth world (VRef annotated_loc) (VRef callback_loc)
    VNone (VRef config_loc).

Definition function_decorated : outcome (heap * value) :=
  construct FunctionWrapper depth world (VRef decorated_loc) (VRef callback_loc)
    VNone (VRef config_loc).

(** ** Predicates the properties are stated with *)




(** ** Chains of proxies *)

(** A host value: a scalar, or a reference to a host object of the heap. *)
Definition host_value (h : heap) (v : value) : Prop :=
  match v with
  | VRef l => ∃ t attrs, h !! l = Some (Plain t attrs)
  | _ => True
  end.

(** The anchor a proxy made without adapter takes for the host value [F]:
    the wrapped-chain pointer of [F] when [F] carries one, else [F]. *)
Definition host_anchor (h : heap) (F : value) : value :=
  match py_getattr 1 h F "__wrapped__" with
  | Ok pointer => pointer
  | Raise _ => F
  end.

(** [wraps h F A k W]: [W] is [F] under [k] layers of proxies, each with
    anchor [A]. *)
Inductive wraps (h : heap) (F A : value) : nat → value → Prop :=
| wraps_host : host_value h F → wraps h F A 0 F
| wraps_proxy k W l c d :
    wraps h F A k W →
    h !! l = Some (Proxy c d) →
    d !! "_self_wrapped" = Some W →
    d !! "_self_target" = Some A →
    wraps h F A (S k) (VRef l).

(** An outcome an [except AttributeError] clause leaves the code with: a
    value, or the exception it catches. *)
Definition settled {A} (r : outcome A) : Prop :=
  match r with
  | Ok _ | Raise AttributeError => True
  | Raise _ => False
  end.

(** The instance dictionary [__init__] leaves, given the anchor it
    resolved and the outcomes of reading the qualified name and the name of
    the wrapped object. *)
Definition dict_after_init (d : gmap string value) (wrapped wrapper params anchor : value)
    (qualname name : outcome value) : gmap string value :=
  let d := <["_self_target" := anchor]>
             (<["_self_params" := params]>
                (<["_self_wrapper" := wrapper]> (<["_self_wrapped" := wrapped]> d))) in
  let d := match qualname with Ok q => <["__qualname__" := q]> d | Raise _ => d end in
  match name with Ok n => <["__name__" := n]> d | Raise _ => d end.

(** Wrapping [F] once per class of [cs], innermost last, without adapter. *)
Fixpoint wrap_chain (cs : list wrapper_class) (fuel : nat) (h : heap)
    (F wrapper params : value) : outcome (heap * value) :=
  match cs with
  | [] => Ok (h, F)
  | c :: cs =>
      '(h, W) ← wrap_chain cs fuel h F wrapper params;
      construct c fuel h W wrapper VNone params
  end.

(** The names [__init__] copies are not members of the wrapper types. *)
Definition copied_name (name : string) : Prop :=
  name = "__qualname__" ∨ name = "__name__".

(** ** Binding *)

(** A binding mechanism that leaves every wrapper instance as it is. *)
Definition keeps_proxies
    (bind : heap → value → value → value → outcome (heap * value)) : Prop :=
  ∀ h w instance owner h1 r,
    bind h w instance owner = Ok (h1, r) →
    ∀ l c d, h !! l = Some (Proxy c d) → h1 !! l = Some (Proxy c d).

(** The class of the bound proxy [__get__] makes. *)
Definition bound_class (c : wrapper_class) : wrapper_class :=
  match c with
  | GenericWrapper => BoundGenericWrapper
  | _ => BoundMethodWrapper
  end.

(** A descriptor whose wrapped-chain pointer is null, and a binding
    mechanism that hands back [g] for it. *)
Definition null_pointer_loc : loc := 10%positive.

Definition world_with_null_pointer : heap :=
  <[null_pointer_loc := Plain (TOther "descriptor") {[ "__wrapped__" := VNone ]}]> world.

Definition bind_to_g (h : heap) (w instance owner : value) : outcome (heap * value) :=
  Ok (h, VRef g_loc).

Definition generic_null_pointer : outcome (heap * value) :=
  construct GenericWrapper depth world_with_null_pointer (VRef null_pointer_loc)
    (VRef callback_loc) VNone (VRef config_loc).

Definition bound_generic_null_pointer : outcome (heap * value) :=
  py_descr_get bind_to_g depth (heap_of generic_null_pointer)
    (value_of generic_null_pointer) (VRef instance_loc) (VRef owner_loc).

(** ** Textual representation *)

Definition class_name (c : wrapper_class) : string :=
  match c with
  | BoundGenericWrapper => "BoundGenericWrapper"
  | GenericWrapper => "GenericWrapper"
  | FunctionWrapper => "FunctionWrapper"
  | BoundMethodWrapper => "BoundMethodWrapper"
  | MethodWrapper => "MethodWrapper"
  end.

(** [str(v)].  The wrapper types define [__repr__] and no [__str__]: the
    [__str__] they inherit from [object] returns [repr(v)].  [host_str] is
    what the host gives for a value that is not a wrapper instance. *)
Fixpoint py_str (host_str : heap → value → string) (fuel : nat) (h : heap)
    (v : value) : outcome string :=
  match fuel with
  | O => Raise RecursionError
  | S n =>
      match proxy_at h v with
      | Some (_, c, _) =>
          WrapperBase.__repr__ (py_getattr n) (py_str host_str n) (class_name c) h v
      | None => Ok (host_str h v)
      end
  end.

(** A representation of host values for the examples. *)
Definition str_by_location (h : heap) (v : value) : string :=
  match v with
  | VRef l => if decide (l = f_loc) then "<function f>" else "<object>"
  | _ => "<value>"
  end.

(** The class method under a plain-function proxy under a generic proxy. *)
Definition nested_classmethod : outcome (heap * value) :=
  wrap_chain [GenericWrapper; FunctionWrapper] depth world
    (VRef classmethod_loc) (VRef callback_loc) (VRef config_loc).

(** ** Binding, then calling *)




(** ** Names a proxy shows as its Target has them *)

(** Names whose value, read through a proxy of class [c], is the one the
    Target has at the time of the read: the two properties that are live
    views, [__module__] and [__doc__], and the names that are not
    reserved, do not begin with two underscores and are not members of the
    wrapper type.  (The other names that begin with two underscores are
    left out: the proxy answers some of them itself, and which members the
    types inherit from [object] depends on the version of the host.) *)
Definition forwarded_name (c : wrapper_class) (name : string) : bool :=
  bool_decide (name ∈ ["__module__"; "__doc__"]) ||
  (negb (String.prefix "_self_" name) &&
   negb (String.prefix "__" name) &&
   negb (type_defines c name) &&
   negb (bool_decide (name = "WRAPPER_ARGLIST"))).

(** ** What can happen to a heap *)

(** The operations that change the heap: an attribute write on any object
    under any name, the construction of a proxy, and a binding by a
    mechanism that leaves wrapper instances alone.  (Reads, comparisons,
    hashing and calls return a result and no heap.)  The one write left
    out is the assignment of [_self_target] on the proxy [W] itself, by
    which a client overwrites the anchor. *)
Inductive operation (W : value) (h h' : heap) : Prop :=
| operation_write (n : nat) (v : value) (name : string) (val : value) :
    py_setattr n h v name val = Ok h' →
    ¬ (v = W ∧ name = "_self_target") →
    operation W h h'
| operation_construct (c : wrapper_class) (n : nat)
    (wrapped wrapper adapter params P : value) :
    construct c n h wrapped wrapper adapter params = Ok (h', P) →
    operation W h h'
| operation_bind (host_bind : heap → value → value → value → outcome (heap * value))
    (n : nat) (w instance owner bound : value) :
    keeps_proxies host_bind →
    py_descr_get host_bind n h w instance owner = Ok (h', bound) →
    operation W h h'.

(** * Properties *)

(** ** Calls *)

Lemma bind_Ok {A B} (a : A) (k : A → outcome B) : (Ok a ≫= k) = k a.
Proof. reflexivity. Qed.

Lemma bind_Raise {A B} (e : exn) (k : A → outcome B) : (Raise e ≫= k) = Raise e.
Proof. reflexivity. Qed.











(** ** Inequality *)

(** C7: [__ne__] returns the negation of what [__eq__] returned, and
    returns the undecided sentinel itself, without raising, when that is
    what [__eq__] returned. *)
Theorem ne_negates_eq_and_passes_undecided
    (self___eq__ : heap → value → value → outcome value)
    (h : heap) (self other result : value) :
  self___eq__ h self other = Ok result →
  WrapperBase.__ne__ self___eq__ h self other =
    Ok (if is_NotImplemented result then VNotImplemented
        else VBool (negb (truthy result))).
Proof.
  intros Heq. unfold WrapperBase.__ne__. rewrite Heq, bind_Ok.
  by destruct result.
Qed.

Lemma ne_negates_eq_and_passes_undecided_witness :
  proxy_ne depth (heap_of function_f) (value_of function_f) (VRef f_loc) = Ok (VBool false) ∧
  proxy_ne depth (heap_of function_f) (value_of function_f) (VRef g_loc) = Ok (VBool true) ∧
  WrapperBase.__ne__ (fun _ _ _ => Ok VNotImplemented) world (VRef f_loc) (VRef g_loc) =
    Ok VNotImplemented.
Proof.
  split; [|split].
  - apply (ne_negates_eq_and_passes_undecided _ _ _ _ (VBool true)).
    vm_compute. reflexivity.
  - apply (ne_negates_eq_and_passes_undecided _ _ _ _ (VBool false)).
    vm_compute. reflexivity.
  - apply (ne_negates_eq_and_passes_undecided _ _ _ _ VNotImplemented).
    reflexivity.
Defined.

(** ** Attribute reads and writes on a wrapper instance *)

Lemma reserved_not_property (name : string) :
  String.prefix "_self_" name = true → is_property name = false.
Proof.
  intros Hpre. unfold is_property. apply bool_decide_eq_false. intros Hin.
  repeat (apply elem_of_cons in Hin as [-> | Hin]; [discriminate Hpre|]).
  by apply elem_of_nil in Hin.
Qed.

Lemma py_getattr_proxy (n : nat) (h : heap) (l : loc) (c : wrapper_class)
    (d : gmap string value) (name : string) :
  h !! l = Some (Proxy c d) →
  py_getattr (S n) h (VRef l) name =
    except_AttributeError
      (WrapperBase.object___getattribute__ (py_getattr n) h l c d name)
      (WrapperBase.__getattr__ (py_getattr n) h (VRef l) name).
Proof. intros Hl. destruct n; simpl; by rewrite Hl. Qed.

(** A name kept in the instance dictionary is read from there. *)
Lemma py_getattr_own (n : nat) (h : heap) (l : loc) (c : wrapper_class)
    (d : gmap string value) (name : string) (v : value) :
  h !! l = Some (Proxy c d) →
  is_property name = false →
  d !! name = Some v →
  py_getattr (S n) h (VRef l) name = Ok v.
Proof.
  intros Hl Hprop Hd. simpl. rewrite Hl.
  unfold WrapperBase.object___getattribute__. by rewrite Hprop, Hd.
Qed.

Lemma py_getattr_reserved (n : nat) (h : heap) (l : loc) (c : wrapper_class)
    (d : gmap string value) (name : string) (v : value) :
  h !! l = Some (Proxy c d) →
  String.prefix "_self_" name = true →
  d !! name = Some v →
  py_getattr (S n) h (VRef l) name = Ok v.
Proof. intros Hl Hpre Hd. eapply py_getattr_own; eauto using reserved_not_property. Qed.

Lemma py_setattr_reserved (n : nat) (h : heap) (l : loc) (c : wrapper_class)
    (d : gmap string value) (name : string) (v : value) :
  h !! l = Some (Proxy c d) →
  String.prefix "_self_" name = true →
  py_setattr (S n) h (VRef l) name v = Ok (<[l := Proxy c (<[name := v]> d)]> h).
Proof.
  intros Hl Hpre. simpl. rewrite Hl.
  unfold WrapperBase.__setattr__. rewrite Hpre.
  unfold WrapperBase.object___setattr__, proxy_at. rewrite Hl.
  by rewrite (reserved_not_property _ Hpre).
Qed.

Lemma py_setattr_forwarded (n : nat) (h : heap) (l : loc) (c : wrapper_class)
    (d : gmap string value) (name : string) (v : value) :
  h !! l = Some (Proxy c d) →
  String.prefix "_self_" name = false →
  py_setattr (S n) h (VRef l) name v =
    (w ← py_getattr n h (VRef l) "_self_wrapped"; py_setattr n h w name v).
Proof.
  intros Hl Hpre. simpl. rewrite Hl.
  unfold WrapperBase.__setattr__. by rewrite Hpre.
Qed.

Lemma py_setattr_host (n : nat) (h : heap) (t : loc) (ty : pytype)
    (attrs : gmap string value) (name : string) (v : value) :
  h !! t = Some (Plain ty attrs) →
  name ≠ "__class__" →
  py_setattr (S n) h (VRef t) name v = Ok (<[t := Plain ty (<[name := v]> attrs)]> h).
Proof.
  intros Ht Hname. simpl. rewrite Ht. by destruct (decide (name = "__class__")).
Qed.

(** A write under a name that is not reserved changes no wrapper instance,
    however long the chain of proxies it is forwarded through. *)
Lemma py_setattr_keeps_proxies (fuel : nat) :
  ∀ (h h' : heap) (v : value) (name : string) (val : value),
    String.prefix "_self_" name = false →
    py_setattr fuel h v name val = Ok h' →
    ∀ l c d, h !! l = Some (Proxy c d) → h' !! l = Some (Proxy c d).
Proof.
  induction fuel as [|n IH]; intros h h' v name val Hpre Hset l c d Hl; [done|].
  destruct v as [| | | | | |t| |]; try done.
  simpl in Hset. destruct (h !! t) as [[ty attrs|c' d']|] eqn:Ht; [| |done].
  - destruct (decide (name = "__class__")); [done|].
    injection Hset as <-. rewrite lookup_insert_ne; [done|]. congruence.
  - unfold WrapperBase.__setattr__ in Hset. rewrite Hpre in Hset.
    destruct (py_getattr n h (VRef t) "_self_wrapped") as [w|e]; [|done].
    rewrite bind_Ok in Hset. eauto.
Qed.

(** What a write does to the wrapper instances: each one stays where it
    is, with its class; its instance dictionary gets the value under the
    name when the write is on that very instance and the name is reserved,
    and is unchanged otherwise. *)
Lemma py_setattr_proxy_frame (fuel : nat) :
  ∀ (h h' : heap) (v : value) (name : string) (val : value),
    py_setattr fuel h v name val = Ok h' →
    ∀ l c d, h !! l = Some (Proxy c d) →
      h' !! l =
        Some (Proxy c (if decide (v = VRef l ∧ String.prefix "_self_" name = true)
                       then <[name := val]> d else d)).
Proof.
  induction fuel as [|n IH]; intros h h' v name val Hset l c d Hl; [done|].
  destruct v as [| | | | | |t| |]; try done.
  cbn [py_setattr] in Hset.
  destruct (h !! t) as [[ty attrs|c0 d0]|] eqn:Ht; [| |done].
  - destruct (decide (name = "__class__")); [done|].
    injection Hset as <-.
    assert (t ≠ l) as Hne by congruence.
    rewrite lookup_insert_ne by done.
    rewrite decide_False; [done|]. intros [[= ->] _]. done.
  - unfold WrapperBase.__setattr__ in Hset.
    destruct (String.prefix "_self_" name) eqn:Hpre.
    + unfold WrapperBase.object___setattr__, proxy_at in Hset. rewrite Ht in Hset.
      rewrite (reserved_not_property _ Hpre) in Hset. injection Hset as <-.
      destruct (decide (t = l)) as [-> | Hne].
      * rewrite lookup_insert_eq. rewrite Ht in Hl. injection Hl as <- <-.
        by rewrite decide_True.
      * rewrite lookup_insert_ne by done.
        rewrite decide_False; [done|]. intros [[= ->] _]. done.
    + destruct (py_getattr n h (VRef t) "_self_wrapped") as [w|e]; [|done].
      rewrite bind_Ok in Hset.
      rewrite (IH _ _ _ _ _ Hset _ _ _ Hl).
      rewrite !decide_False; [done| |]; intros [_ ?]; congruence.
Qed.

(** A write makes no wrapper instance: those of the heap it leaves were
    there before, with the same class. *)
Lemma py_setattr_makes_no_proxy (fuel : nat) :
  ∀ (h h' : heap) (v : value) (name : string) (val : value),
    py_setattr fuel h v name val = Ok h' →
    ∀ l c d', h' !! l = Some (Proxy c d') → ∃ d, h !! l = Some (Proxy c d).
Proof.
  induction fuel as [|n IH]; intros h h' v name val Hset l c d' Hl'; [done|].
  destruct v as [| | | | | |t| |]; try done.
  cbn [py_setattr] in Hset.
  destruct (h !! t) as [[ty attrs|c0 d0]|] eqn:Ht; [| |done].
  - destruct (decide (name = "__class__")); [done|].
    injection Hset as <-.
    destruct (decide (l = t)) as [-> | Hne].
    + by rewrite lookup_insert_eq in Hl'.
    + rewrite lookup_insert_ne in Hl' by done. eauto.
  - unfold WrapperBase.__setattr__ in Hset.
    destruct (String.prefix "_self_" name) eqn:Hpre.
    + unfold WrapperBase.object___setattr__, proxy_at in Hset. rewrite Ht in Hset.
      rewrite (reserved_not_property _ Hpre) in Hset. injection Hset as <-.
      destruct (decide (l = t)) as [-> | Hne].
      * rewrite lookup_insert_eq in Hl'. injection Hl' as <- <-. eauto.
      * rewrite lookup_insert_ne in Hl' by done. eauto.
    + destruct (py_getattr n h (VRef t) "_self_wrapped") as [w|e]; [|done].
      rewrite bind_Ok in Hset. by eapply IH.
Qed.

Lemma proxy_at_lookup (h : heap) (self : value) (l : loc) (c : wrapper_class)
    (d : gmap string value) :
  proxy_at h self = Some (l, c, d) → self = VRef l ∧ h !! l = Some (Proxy c d).
Proof.
  destruct self as [| | | | | |l'| |]; try done. simpl.
  destruct (h !! l') as [[?|??]|] eqn:Hl; try done. by intros [= <- <- <-].
Qed.

(** C8: a write under a reserved name is stored in the instance dictionary
    of the proxy and changes no other object, the Target included; a write
    under any other name is the same write on the Target, and leaves the
    proxy as it was. *)
Theorem attribute_write_frame
    (n : nat) (h : heap) (self : value) (l : loc) (c : wrapper_class)
    (d : gmap string value) (name : string) (v : value) :
  proxy_at h self = Some (l, c, d) →
  (String.prefix "_self_" name = true →
     ∃ h', py_setattr (S n) h self name v = Ok h' ∧
           h' !! l = Some (Proxy c (<[name := v]> d)) ∧
           ∀ t, t ≠ l → h' !! t = h !! t) ∧
  (String.prefix "_self_" name = false →
     py_setattr (S n) h self name v =
       (target ← py_getattr n h self "_self_wrapped"; py_setattr n h target name v) ∧
     ∀ h', py_setattr (S n) h self name v = Ok h' → h' !! l = Some (Proxy c d)).
Proof.
  intros [-> Hl]%proxy_at_lookup. split; intros Hpre.
  - eexists. split; [by apply py_setattr_reserved|]. split.
    + by rewrite lookup_insert_eq.
    + intros t Ht. by rewrite lookup_insert_ne.
  - split; [by eapply py_setattr_forwarded|].
    intros h' Hset. by eapply py_setattr_keeps_proxies.
Qed.

(** The forwarded write on a Target that is a host object: the attribute
    is stored there. *)
Lemma attribute_write_reaches_host_target
    (n : nat) (h : heap) (l t : loc) (c : wrapper_class) (d : gmap string value)
    (ty : pytype) (attrs : gmap string value) (name : string) (v : value) :
  h !! l = Some (Proxy c d) →
  d !! "_self_wrapped" = Some (VRef t) →
  h !! t = Some (Plain ty attrs) →
  String.prefix "_self_" name = false →
  name ≠ "__class__" →
  py_setattr (S (S n)) h (VRef l) name v =
    Ok (<[t := Plain ty (<[name := v]> attrs)]> h).
Proof.
  intros Hl Hw Ht Hpre Hname.
  rewrite (py_setattr_forwarded _ _ _ _ _ _ _ Hl Hpre).
  rewrite (py_getattr_reserved n h l c d "_self_wrapped" _ Hl eq_refl Hw), bind_Ok.
  by apply py_setattr_host.
Qed.

Lemma attribute_write_frame_witness :
  ∃ l d,
    proxy_at (heap_of function_f) (value_of function_f) = Some (l, FunctionWrapper, d) ∧
    (∃ h', py_setattr depth (heap_of function_f) (value_of function_f) "_self_note" (VInt 1)
             = Ok h' ∧
           h' !! l = Some (Proxy FunctionWrapper (<["_self_note" := VInt 1]> d)) ∧
           ∀ t, t ≠ l → h' !! t = heap_of function_f !! t) ∧
    (∀ h', py_setattr depth (heap_of function_f) (value_of function_f) "note" (VInt 1)
             = Ok h' →
           h' !! l = Some (Proxy FunctionWrapper d)).
Proof.
  eexists _, _. split; [vm_compute; reflexivity|]. split.
  - eapply (attribute_write_frame 5 (heap_of function_f) (value_of function_f)).
    + vm_compute. reflexivity.
    + reflexivity.
  - eapply (attribute_write_frame 5 (heap_of function_f) (value_of function_f)).
    + vm_compute. reflexivity.
    + reflexivity.
Defined.

(** ** The annotation mapping *)

(** The write of the annotation mapping through a proxy stores it on a
    Target that is a host object. *)
Lemma annotations_write_reaches_target
    (n : nat) (h : heap) (l t : loc) (c : wrapper_class) (d : gmap string value)
    (ty : pytype) (attrs : gmap string value) (v : value) :
  h !! l = Some (Proxy c d) →
  d !! "_self_wrapped" = Some (VRef t) →
  h !! t = Some (Plain ty attrs) →
  py_setattr (S (S n)) h (VRef l) "__annotations__" v =
    Ok (<[t := Plain ty (<["__annotations__" := v]> attrs)]> h).
Proof. intros. by eapply attribute_write_reaches_host_target. Qed.

(** The read of the annotation mapping through a proxy: the getter asks
    the Target for [__anotations__]; when the Target has no such attribute
    the [__getattr__] hook takes over and asks it for [__annotations__]. *)
Lemma annotations_read_on_host_target
    (n : nat) (h : heap) (l t : loc) (c : wrapper_class) (d : gmap string value)
    (ty : pytype) (attrs : gmap string value) :
  h !! l = Some (Proxy c d) →
  d !! "_self_wrapped" = Some (VRef t) →
  h !! t = Some (Plain ty attrs) →
  py_getattr (S (S n)) h (VRef l) "__annotations__" =
    match attrs !! "__anotations__" with
    | Some misspelt => Ok misspelt
    | None => py_getattr (S n) h (VRef t) "__annotations__"
    end.
Proof.
  intros Hl Hw Ht.
  rewrite (py_getattr_proxy _ _ _ _ _ _ Hl).
  change (WrapperBase.object___getattribute__ (py_getattr (S n)) h l c d "__annotations__")
    with (WrapperBase.__annotations__ (py_getattr (S n)) h (VRef l)).
  unfold WrapperBase.__annotations__, WrapperBase.__getattr__.
  rewrite (py_getattr_reserved n h l c d "_self_wrapped" _ Hl eq_refl Hw), !bind_Ok.
  assert (py_getattr (S n) h (VRef t) "__anotations__" =
          match attrs !! "__anotations__" with
          | Some v => Ok v
          | None => Raise AttributeError
          end) as ->.
  { simpl. rewrite Ht. reflexivity. }
  by destruct (attrs !! "__anotations__").
Qed.

(** C6: the annotation mapping read through a proxy is not the Target's
    when the Target carries an attribute [__anotations__]: the proxy of
    the annotated function yields that attribute, while the function's
    annotation mapping is the configured one. *)
Theorem annotations_read_takes_the_misspelt_attribute :
  py_getattr depth (heap_of function_annotated) (VRef annotated_loc) "__annotations__" =
    Ok (VRef config_loc) ∧
  py_getattr depth (heap_of function_annotated) (value_of function_annotated)
    "__annotations__" = Ok (VStr "note").
Proof. split; vm_compute; reflexivity. Qed.

(** ** Equality and hashing *)

Lemma host___eq___shape (v w : value) :
  host___eq__ v w = VNotImplemented ∨ ∃ b, host___eq__ v w = VBool b.
Proof.
  unfold host___eq__.
  destruct (as_int v), (as_int w); eauto;
    destruct v, w; eauto; case_decide; eauto.
Qed.

(** [==] yields a truth value whenever it yields a value: the undecided
    sentinel of an [__eq__] method never leaves the operator. *)
Lemma py_eq_bool (fuel : nat) :
  ∀ (h : heap) (v w r : value), py_eq fuel h v w = Ok r → ∃ b, r = VBool b.
Proof.
  induction fuel as [|n IH]; intros h v w r Heq; [done|].
  simpl in Heq.
  assert (∀ a b r', type___eq__ (py_getattr n) (py_eq n) h a b = Ok r' →
                    r' = VNotImplemented ∨ ∃ b', r' = VBool b') as Hshape.
  { intros a b r'. unfold type___eq__, WrapperBase.__eq__.
    destruct (is_proxy h a).
    - destruct (py_getattr n h a "_self_target") as [t|e]; [|done].
      rewrite bind_Ok. intros Ht. right. eauto.
    - intros [= <-]. apply host___eq___shape. }
  destruct (type___eq__ (py_getattr n) (py_eq n) h v w) as [r1|e1] eqn:H1; [|done].
  rewrite bind_Ok in Heq.
  destruct (Hshape _ _ _ H1) as [-> | [b1 ->]]; [|injection Heq as <-; eauto].
  simpl in Heq.
  destruct (type___eq__ (py_getattr n) (py_eq n) h w v) as [r2|e2] eqn:H2; [|done].
  rewrite bind_Ok in Heq.
  destruct (Hshape _ _ _ H2) as [-> | [b2 ->]]; injection Heq as <-; eauto.
Qed.

(** Equality and hash of a proxy are those of its anchor. *)
Lemma proxy_eq_is_anchor_eq (n : nat) (h : heap) (P T X : value) :
  is_proxy h P = true →
  py_getattr n h P "_self_target" = Ok T →
  py_eq (S n) h P X = py_eq n h T X.
Proof.
  intros HP HT. cbn [py_eq].
  assert (type___eq__ (py_getattr n) (py_eq n) h P X = py_eq n h T X) as ->.
  { unfold type___eq__, WrapperBase.__eq__. by rewrite HP, HT, bind_Ok. }
  destruct (py_eq n h T X) as [r|e] eqn:Heq; [|done].
  rewrite bind_Ok. by destruct (py_eq_bool _ _ _ _ _ Heq) as [b ->].
Qed.

Lemma proxy_hash_is_anchor_hash (host_hash : value → Z) (n : nat) (h : heap) (P T : value) :
  is_proxy h P = true →
  py_getattr n h P "_self_target" = Ok T →
  py_hash host_hash (S n) h P = py_hash host_hash n h T.
Proof.
  intros HP HT. cbn [py_hash]. rewrite HP. unfold WrapperBase.__hash__.
  by rewrite HT, bind_Ok.
Qed.

(** A host value is equal to itself. *)
Lemma host_value_eq_refl (n : nat) (h : heap) (F : value) :
  is_proxy h F = false → py_eq (S n) h F F = Ok (VBool true).
Proof.
  intros HF. simpl. unfold type___eq__. rewrite HF, bind_Ok.
  assert (host___eq__ F F = VBool true) as ->; [|done].
  unfold host___eq__. destruct F; simpl; try by rewrite ?bool_decide_eq_true_2.
  all: by rewrite decide_True.
Qed.

(** ** Reads along a chain of proxies *)

Lemma host_value_not_proxy (h : heap) (F : value) :
  host_value h F → is_proxy h F = false.
Proof.
  destruct F as [| | | | | |l| |]; try done.
  intros (t & attrs & Hl). unfold is_proxy, proxy_at. by rewrite Hl.
Qed.

(** A read on a host value takes one step and ends in a value or in
    [AttributeError]. *)
Lemma host_value_read (h : heap) (F : value) (n : nat) (name : string) :
  host_value h F →
  py_getattr (S n) h F name = py_getattr 1 h F name ∧ settled (py_getattr 1 h F name).
Proof.
  destruct F as [| | | | | |l| |]; simpl;
    try (intros _; split; [done|]; by case_decide).
  intros (t & attrs & ->). split; [done|].
  unfold host_getattr. case_decide; [done|]. by destruct (attrs !! name).
Qed.

(** Allocation at a free location changes no read on a host value. *)
Lemma host_value_insert (h : heap) (F : value) (l : loc) (o : object) :
  host_value h F → h !! l = None →
  host_value (<[l := o]> h) F ∧
  ∀ fuel name, py_getattr fuel (<[l := o]> h) F name = py_getattr fuel h F name.
Proof.
  intros HF Hl. destruct F as [| | | | | |f| |];
    try (split; [done|]; intros [|n] ?; reflexivity).
  destruct HF as (t & attrs & Hf).
  assert (l ≠ f) by congruence.
  split.
  - exists t, attrs. by rewrite lookup_insert_ne.
  - intros [|n] name; [done|]. cbn [py_getattr]. by rewrite lookup_insert_ne, Hf.
Qed.

Lemma wraps_insert (h : heap) (F A : value) (k : nat) (W : value) (l : loc) (o : object) :
  wraps h F A k W → h !! l = None → wraps (<[l := o]> h) F A k W.
Proof.
  intros HW Hl. induction HW as [HF | k W l1 c d HW IH Hl1 Hd Ht].
  - apply wraps_host. by apply host_value_insert.
  - eapply wraps_proxy; eauto.
    rewrite lookup_insert_ne; [done|]. congruence.
Qed.

(** The [__getattr__] hook and the property getters read the wrapped
    object only: two heaps that agree on the reads of the proxy and of the
    wrapped object agree on them. *)
Lemma getattr_hook_frame (n : nat) (h hx : heap) (l : loc) (c : wrapper_class)
    (d : gmap string value) (W : value) (name : string) :
  h !! l = Some (Proxy c d) →
  d !! "_self_wrapped" = Some W →
  (∀ s, py_getattr n hx (VRef l) s = py_getattr n h (VRef l) s) →
  (∀ s, py_getattr n hx W s = py_getattr n h W s) →
  WrapperBase.__getattr__ (py_getattr n) hx (VRef l) name =
  WrapperBase.__getattr__ (py_getattr n) h (VRef l) name.
Proof.
  intros Hl Hd Hself HW. unfold WrapperBase.__getattr__. rewrite Hself.
  destruct n as [|n]; [done|].
  by rewrite (py_getattr_reserved n h l c d "_self_wrapped" _ Hl eq_refl Hd), !bind_Ok.
Qed.

Lemma property_get_frame (n : nat) (h hx : heap) (l : loc) (c : wrapper_class)
    (d : gmap string value) (W : value) (name : string) :
  h !! l = Some (Proxy c d) →
  d !! "_self_wrapped" = Some W →
  (∀ s, py_getattr n hx (VRef l) s = py_getattr n h (VRef l) s) →
  (∀ s, py_getattr n hx W s = py_getattr n h W s) →
  WrapperBase.property_get (py_getattr n) name hx (VRef l) =
  WrapperBase.property_get (py_getattr n) name h (VRef l).
Proof.
  intros Hl Hd Hself HW. unfold WrapperBase.property_get.
  repeat case_decide;
    try (by apply (getattr_hook_frame n h hx l c d W)).
  unfold WrapperBase.__wrapped__. apply Hself.
Qed.

(** Allocation at a free location changes no read along a chain. *)
Lemma py_getattr_chain_frame (h : heap) (F A : value) (l : loc) (o : object) (fuel : nat) :
  h !! l = None →
  ∀ k W name, wraps h F A k W →
    py_getattr fuel (<[l := o]> h) W name = py_getattr fuel h W name.
Proof.
  intros Hl. induction fuel as [|n IH]; intros k W name HW; [done|].
  destruct HW as [HF | k W l1 c d HW Hl1 Hd Ht].
  - by apply host_value_insert.
  - assert (l ≠ l1) by congruence.
    cbn [py_getattr]. rewrite lookup_insert_ne, Hl1 by done.
    assert (wraps h F A (S k) (VRef l1)) as Hself by (by eapply wraps_proxy).
    f_equal.
    + unfold WrapperBase.object___getattribute__.
      destruct (is_property name); [|done].
      apply (property_get_frame n h _ l1 c d W); eauto.
    + apply (getattr_hook_frame n h _ l1 c d W); eauto.
Qed.

(** The wrapped-chain pointer read on the outermost proxy of a chain is
    the anchor of the chain. *)
Lemma wraps_read_pointer (h : heap) (F A : value) (k : nat) (W : value) (n : nat) :
  wraps h F A (S k) W → py_getattr (S (S n)) h W "__wrapped__" = Ok A.
Proof.
  inversion 1 as [|k' W' l c d HW Hl Hd Ht]; subst.
  rewrite (py_getattr_proxy _ _ _ _ _ _ Hl).
  assert (WrapperBase.object___getattribute__ (py_getattr (S n)) h l c d "__wrapped__"
          = Ok A) as ->; [|done].
  rewrite <- (py_getattr_reserved n h l c d "_self_target" _ Hl eq_refl Ht).
  reflexivity.
Qed.

(** Reading such a name along a chain of [k] proxies ends in a value or
    in [AttributeError] once the depth budget exceeds [k]. *)
Lemma wraps_read_settled (h : heap) (F A : value) (name : string) :
  copied_name name →
  ∀ k W, wraps h F A k W → ∀ fuel, k < fuel → settled (py_getattr fuel h W name).
Proof.
  intros Hname k W HW.
  induction HW as [HF | k W l c d HW IH Hl Hd Ht]; intros fuel Hfuel.
  - destruct fuel as [|n]; [lia|].
    destruct (host_value_read h F n name HF) as [-> Hs]. done.
  - destruct fuel as [|[|n]]; [lia|lia|].
    rewrite (py_getattr_proxy _ _ _ _ _ _ Hl).
    unfold WrapperBase.object___getattribute__, WrapperBase.__getattr__.
    assert (is_property name = false) as -> by (by destruct Hname as [-> | ->]).
    destruct (d !! name) as [v|]; [done|].
    assert (name ≠ "WRAPPER_ARGLIST") by (by destruct Hname as [-> | ->]).
    rewrite decide_False by done.
    assert (type_defines c name = false) as ->
      by (by destruct Hname as [-> | ->]; destruct c).
    cbn [except_AttributeError].
    rewrite (py_getattr_reserved n h l c d "_self_wrapped" _ Hl eq_refl Hd), bind_Ok.
    apply IH. lia.
Qed.

(** ** Initialisation *)

Lemma store_reserved (n : nat) (h : heap) (l : loc) (c : wrapper_class)
    (d : gmap string value) (name : string) (v : value) :
  String.prefix "_self_" name = true →
  py_setattr (S n) (<[l := Proxy c d]> h) (VRef l) name v =
    Ok (<[l := Proxy c (<[name := v]> d)]> h).
Proof.
  intros Hpre.
  rewrite (py_setattr_reserved n _ l c d name v (lookup_insert_eq _ _ _) Hpre).
  by rewrite insert_insert_eq.
Qed.

Lemma store_copied (getattr : heap → value → string → outcome value)
    (setattr : heap → value → string → value → outcome heap)
    (h : heap) (l : loc) (c : wrapper_class) (d : gmap string value)
    (name : string) (v : value) :
  is_property name = false →
  WrapperBase.object___setattr__ getattr setattr (<[l := Proxy c d]> h) (VRef l) name v =
    Ok (<[l := Proxy c (<[name := v]> d)]> h).
Proof.
  intros Hprop. unfold WrapperBase.object___setattr__, proxy_at.
  by rewrite lookup_insert_eq, Hprop, insert_insert_eq.
Qed.

Ltac store_step :=
  rewrite store_reserved by reflexivity; rewrite ?bind_Ok.

(** What [__init__] leaves when it returns: the instance dictionary of
    [dict_after_init], for the anchor it resolved and the outcomes of the
    two reads it copies names from; every other object is as before. *)
Lemma init_inversion (n : nat) (h h' : heap) (l : loc) (c : wrapper_class)
    (d : gmap string value) (wrapped wrapper adapter params : value) :
  WrapperBase.__init__ (py_getattr (S n)) (py_setattr (S n))
    (<[l := Proxy c d]> h) (VRef l) wrapped wrapper adapter params = Ok h' →
  ∃ anchor rq rn,
    h' = <[l := Proxy c (dict_after_init d wrapped wrapper params anchor rq rn)]> h ∧
    (is_None adapter = false → anchor = adapter).
Proof.
  unfold WrapperBase.__init__. do 3 store_step.
  set (d3 := <["_self_params" := params]> _).
  intros Hinit.
  assert (∃ anchor,
    (if is_None adapter then
       except_AttributeError
         (t ← py_getattr (S n) (<[l := Proxy c d3]> h) wrapped "__wrapped__";
          py_setattr (S n) (<[l := Proxy c d3]> h) (VRef l) "_self_target" t)
         (py_setattr (S n) (<[l := Proxy c d3]> h) (VRef l) "_self_target" wrapped)
     else py_setattr (S n) (<[l := Proxy c d3]> h) (VRef l) "_self_target" adapter)
    = Ok (<[l := Proxy c (<["_self_target" := anchor]> d3)]> h) ∧
    (is_None adapter = false → anchor = adapter)) as (anchor & Hanchor & Hadapter).
  { destruct (is_None adapter).
    - destruct (py_getattr (S n) (<[l := Proxy c d3]> h) wrapped "__wrapped__")
        as [t|[]] eqn:Hread; rewrite ?bind_Ok, ?bind_Raise in Hinit |- *;
        try done.
      + exists t. by store_step.
      + exists wrapped. cbn [except_AttributeError]. by store_step.
    - exists adapter. by store_step. }
  rewrite Hanchor, bind_Ok in Hinit.
  set (d4 := <["_self_target" := anchor]> d3) in *.
  exists anchor.
  destruct (py_getattr (S n) (<[l := Proxy c d4]> h) wrapped "__qualname__")
    as [q|eq] eqn:Hq; rewrite ?bind_Ok, ?bind_Raise in Hinit.
  - rewrite store_copied in Hinit by reflexivity.
    cbn [except_AttributeError] in Hinit. rewrite bind_Ok in Hinit.
    destruct (py_getattr (S n) (<[l := Proxy c (<["__qualname__" := q]> d4)]> h)
                wrapped "__name__") as [m|em] eqn:Hm;
      rewrite ?bind_Ok, ?bind_Raise in Hinit.
    + rewrite store_copied in Hinit by reflexivity.
      injection Hinit as <-. by exists (Ok q), (Ok m).
    + destruct em; try done. injection Hinit as <-.
      by exists (Ok q), (Raise AttributeError).
  - destruct eq; try done. cbn [except_AttributeError] in Hinit.
    rewrite bind_Ok in Hinit.
    destruct (py_getattr (S n) (<[l := Proxy c d4]> h) wrapped "__name__")
      as [m|em] eqn:Hm; rewrite ?bind_Ok, ?bind_Raise in Hinit.
    + rewrite store_copied in Hinit by reflexivity.
      injection Hinit as <-. by exists (Raise AttributeError), (Ok m).
    + destruct em; try done. injection Hinit as <-.
      by exists (Raise AttributeError), (Raise AttributeError).
Qed.

(** [__init__] returns whenever the reads it makes of the wrapped object
    end in a value or in [AttributeError]. *)
Lemma init_result (n : nat) (h : heap) (l : loc) (c : wrapper_class)
    (d : gmap string value) (wrapped wrapper adapter params anchor : value)
    (rw rq rn : outcome value) :
  (∀ o, py_getattr (S n) (<[l := o]> h) wrapped "__wrapped__" = rw) →
  (∀ o, py_getattr (S n) (<[l := o]> h) wrapped "__qualname__" = rq) →
  (∀ o, py_getattr (S n) (<[l := o]> h) wrapped "__name__" = rn) →
  settled rq → settled rn →
  (if is_None adapter then rw = Ok anchor ∨ (rw = Raise AttributeError ∧ anchor = wrapped)
   else anchor = adapter) →
  WrapperBase.__init__ (py_getattr (S n)) (py_setattr (S n))
    (<[l := Proxy c d]> h) (VRef l) wrapped wrapper adapter params =
    Ok (<[l := Proxy c (dict_after_init d wrapped wrapper params anchor rq rn)]> h).
Proof.
  intros Hw Hq Hn Hsq Hsn Hanchor.
  unfold WrapperBase.__init__. do 3 store_step.
  set (d3 := <["_self_params" := params]> _).
  assert (
    (if is_None adapter then
       except_AttributeError
         (t ← py_getattr (S n) (<[l := Proxy c d3]> h) wrapped "__wrapped__";
          py_setattr (S n) (<[l := Proxy c d3]> h) (VRef l) "_self_target" t)
         (py_setattr (S n) (<[l := Proxy c d3]> h) (VRef l) "_self_target" wrapped)
     else py_setattr (S n) (<[l := Proxy c d3]> h) (VRef l) "_self_target" adapter)
    = Ok (<[l := Proxy c (<["_self_target" := anchor]> d3)]> h)) as ->.
  { destruct (is_None adapter).
    - rewrite Hw. destruct Hanchor as [-> | [-> ->]].
      + rewrite bind_Ok. by store_step.
      + rewrite bind_Raise. cbn [except_AttributeError]. by store_step.
    - subst anchor. by store_step. }
  rewrite bind_Ok, Hq.
  unfold dict_after_init. fold d3.
  set (d4 := <["_self_target" := anchor]> d3).
  destruct rq as [q|[]]; try done.
  - rewrite bind_Ok, store_copied by reflexivity.
    cbn [except_AttributeError]. rewrite bind_Ok, Hn.
    destruct rn as [m|[]]; try done.
    rewrite bind_Ok. by rewrite store_copied by reflexivity.
  - rewrite bind_Raise. cbn [except_AttributeError]. rewrite bind_Ok, Hn.
    destruct rn as [m|[]]; try done.
    rewrite bind_Ok. by rewrite store_copied by reflexivity.
Qed.

Lemma fresh_loc_free (h : heap) : h !! fresh_loc h = None.
Proof. apply (not_elem_of_dom (D := gset loc)). unfold fresh_loc. apply is_fresh. Qed.

(** Construction takes a fresh location and leaves every object that
    existed before as it was. *)
Lemma construct_keeps_objects (c : wrapper_class) (fuel : nat) (h h' : heap)
    (wrapped wrapper adapter params P : value) :
  construct c fuel h wrapped wrapper adapter params = Ok (h', P) →
  ∀ l o, h !! l = Some o → h' !! l = Some o.
Proof.
  destruct fuel as [|n]; [done|].
  unfold construct, allocate. intros Hcons l o Hl.
  destruct (WrapperBase.__init__ _ _ _ _ _ _ _ _) as [h1|e] eqn:Hinit; [|done].
  rewrite bind_Ok in Hcons. injection Hcons as <- <-.
  apply init_inversion in Hinit as (anchor & rq & rn & -> & _).
  pose proof (fresh_loc_free h) as Hfree.
  rewrite lookup_insert_ne; [done|]. congruence.
Qed.

(** The anchor of a chain over the host value [F], as it shows to the next
    wrap: through the wrapped-chain pointer of the outermost proxy, or, on
    [F] itself, through the pointer [F] carries if any. *)
Lemma wraps_anchor_read (h : heap) (F : value) (k : nat) (W : value) (fuel : nat) :
  wraps h F (host_anchor h F) k W → k < fuel →
  py_getattr fuel h W "__wrapped__" = Ok (host_anchor h F) ∨
  (py_getattr fuel h W "__wrapped__" = Raise AttributeError ∧ host_anchor h F = W).
Proof.
  intros HW Hfuel. destruct k as [|k].
  - inversion HW as [HF|]; subst. destruct fuel as [|n]; [lia|].
    destruct (host_value_read h W n "__wrapped__" HF) as [-> Hs].
    unfold host_anchor. destruct (py_getattr 1 h W "__wrapped__") as [p|[]]; auto; done.
  - destruct fuel as [|[|n]]; [lia|lia|]. left. by eapply wraps_read_pointer.
Qed.

(** Wrapping the outermost element of a chain, without adapter, returns
    when the depth budget exceeds the length of the chain, and extends the
    chain by a proxy with the same anchor. *)
Lemma construct_on_chain (c : wrapper_class) (fuel : nat) (h : heap)
    (F wrapper params : value) (k : nat) (W : value) :
  wraps h F (host_anchor h F) k W → k < fuel →
  ∃ h' l d,
    construct c fuel h W wrapper VNone params = Ok (h', VRef l) ∧
    h !! l = None ∧
    h' = <[l := Proxy c d]> h ∧
    d !! "_self_target" = Some (host_anchor h F) ∧
    d !! "_self_wrapped" = Some W.
Proof.
  intros HW Hfuel. destruct fuel as [|n]; [lia|].
  pose proof (fresh_loc_free h) as Hfree.
  set (l := fresh_loc h) in *.
  set (A := host_anchor h F) in *.
  set (rq := py_getattr (S n) h W "__qualname__").
  set (rn := py_getattr (S n) h W "__name__").
  exists (<[l := Proxy c (dict_after_init ∅ W wrapper params A rq rn)]> h), l,
    (dict_after_init ∅ W wrapper params A rq rn).
  split; [|split; [done|split; [done|]]].
  - unfold construct, allocate. fold l.
    rewrite (init_result n h l c ∅ W wrapper VNone params A
               (py_getattr (S n) h W "__wrapped__") rq rn).
    + by rewrite bind_Ok.
    + intros o. apply (py_getattr_chain_frame h F A l o (S n) Hfree k W _ HW).
    + intros o. apply (py_getattr_chain_frame h F A l o (S n) Hfree k W _ HW).
    + intros o. apply (py_getattr_chain_frame h F A l o (S n) Hfree k W _ HW).
    + apply (wraps_read_settled h F A "__qualname__" (or_introl eq_refl) k W HW _ Hfuel).
    + apply (wraps_read_settled h F A "__name__" (or_intror eq_refl) k W HW _ Hfuel).
    + apply (wraps_anchor_read h F k W (S n) HW Hfuel).
  - unfold dict_after_init. destruct rq, rn; by simplify_map_eq.
Qed.

(** ** Nested wrapping *)

Lemma host_anchor_insert (h : heap) (F : value) (l : loc) (o : object) :
  host_value h F → h !! l = None → host_anchor (<[l := o]> h) F = host_anchor h F.
Proof.
  intros HF Hl. unfold host_anchor.
  destruct (host_value_insert h F l o HF Hl) as [_ Hread]. by rewrite Hread.
Qed.

(** Wrapping a host value once per class of [cs] returns when the depth
    budget is at least the number of wraps, and leaves a chain whose
    anchor is the one of the host value. *)
Lemma wrap_chain_wraps (cs : list wrapper_class) (fuel : nat) (h : heap)
    (F wrapper params : value) :
  host_value h F → (length cs ≤ fuel)%nat →
  ∃ h' W,
    wrap_chain cs fuel h F wrapper params = Ok (h', W) ∧
    host_value h' F ∧
    host_anchor h' F = host_anchor h F ∧
    wraps h' F (host_anchor h F) (length cs) W.
Proof.
  intros HF. induction cs as [|c cs IH]; intros Hfuel.
  - exists h, F. repeat split; try done. by apply wraps_host.
  - simpl in Hfuel. destruct IH as (h1 & W & Hchain & HF1 & HA1 & HW); [lia|].
    rewrite <- HA1 in HW.
    destruct (construct_on_chain c fuel h1 F wrapper params (length cs) W HW)
      as (h2 & l & d & Hcons & Hfree & -> & Ht & Hd); [lia|].
    exists (<[l := Proxy c d]> h1), (VRef l).
    cbn [wrap_chain]. rewrite Hchain, bind_Ok. split; [done|].
    split; [by apply host_value_insert|].
    split; [by rewrite host_anchor_insert|].
    rewrite <- HA1. cbn [length].
    eapply wraps_proxy.
    + by apply wraps_insert.
    + by rewrite lookup_insert_eq.
    + done.
    + done.
Qed.

(** ** Equality and hashing of a wrapped entity *)

(** C4, as stated, fails: the proxy of the function that carries a
    wrapped-chain pointer to [g] is not equal to that function, and does
    not hash like it. *)
Lemma proxy_of_decorated_function_differs :
  py_eq depth (heap_of function_decorated) (value_of function_decorated)
    (VRef decorated_loc) = Ok (VBool false) ∧
  py_hash hash_by_identity depth (heap_of function_decorated) (value_of function_decorated)
    ≠ py_hash hash_by_identity depth (heap_of function_decorated) (VRef decorated_loc).
Proof. split; [vm_compute; reflexivity|]. vm_compute. discriminate. Qed.

(** C4, amended: a proxy [P] with anchor [T] compares to any [X] as [T]
    does and hashes as [T]; the proxy of a host value [F] made without
    adapter compares and hashes as the wrapped-chain pointer [F] carries,
    or as [F] when it carries none: only then is it equal to [F], with the
    hash of [F]. *)
Theorem proxy_equality_and_hash_are_the_anchors
    (host_hash : value → Z) (n : nat) (h : heap) :
  (∀ P T X,
     is_proxy h P = true →
     py_getattr n h P "_self_target" = Ok T →
     py_eq (S n) h P X = py_eq n h T X ∧
     py_hash host_hash (S n) h P = py_hash host_hash n h T) ∧
  (∀ c F wrapper params,
     host_value h F →
     ∃ h' W,
       construct c (S n) h F wrapper VNone params = Ok (h', W) ∧
       (∀ Y, py_eq (S (S n)) h' W Y = py_eq (S n) h' (host_anchor h F) Y) ∧
       py_hash host_hash (S (S n)) h' W = py_hash host_hash (S n) h' (host_anchor h F) ∧
       (py_getattr 1 h F "__wrapped__" = Raise AttributeError →
          py_eq (S (S n)) h' W F = Ok (VBool true) ∧
          py_hash host_hash (S (S n)) h' W = py_hash host_hash (S n) h' F)).
Proof.
  split.
  { intros P T X HP HT.
    split; [by apply proxy_eq_is_anchor_eq | by apply proxy_hash_is_anchor_hash]. }
  intros c F wrapper params HF.
  destruct (construct_on_chain c (S n) h F wrapper params 0 F)
    as (h' & l & d & Hcons & Hfree & -> & Ht & Hd); [by apply wraps_host | lia |].
  exists (<[l := Proxy c d]> h), (VRef l). split; [done|].
  assert (is_proxy (<[l := Proxy c d]> h) (VRef l) = true) as Hproxy.
  { unfold is_proxy, proxy_at. by rewrite lookup_insert_eq. }
  assert (py_getattr (S n) (<[l := Proxy c d]> h) (VRef l) "_self_target"
          = Ok (host_anchor h F)) as Hread.
  { eapply py_getattr_reserved; [apply lookup_insert_eq | done | done]. }
  assert (∀ Y, py_eq (S (S n)) (<[l := Proxy c d]> h) (VRef l) Y =
               py_eq (S n) (<[l := Proxy c d]> h) (host_anchor h F) Y) as Heq.
  { intros Y. by apply proxy_eq_is_anchor_eq. }
  assert (py_hash host_hash (S (S n)) (<[l := Proxy c d]> h) (VRef l) =
          py_hash host_hash (S n) (<[l := Proxy c d]> h) (host_anchor h F)) as Hhash.
  { by apply proxy_hash_is_anchor_hash. }
  split; [done|]. split; [done|].
  intros Hnone.
  assert (host_anchor h F = F) as HA by (unfold host_anchor; by rewrite Hnone).
  rewrite HA in Heq, Hhash. split; [|done].
  rewrite Heq. apply host_value_eq_refl, host_value_not_proxy.
  by apply host_value_insert.
Qed.

Lemma proxy_equality_and_hash_are_the_anchors_witness :
  (py_eq depth (heap_of function_f) (value_of function_f) (VRef g_loc) =
     py_eq 5 (heap_of function_f) (VRef f_loc) (VRef g_loc) ∧
   py_hash hash_by_identity depth (heap_of function_f) (value_of function_f) =
     py_hash hash_by_identity 5 (heap_of function_f) (VRef f_loc)) ∧
  ∃ h' W,
    construct FunctionWrapper depth world (VRef f_loc) (VRef callback_loc)
      VNone (VRef config_loc) = Ok (h', W) ∧
    py_eq (S depth) h' W (VRef f_loc) = Ok (VBool true) ∧
    py_hash hash_by_identity (S depth) h' W = py_hash hash_by_identity depth h' (VRef f_loc).
Proof.
  split.
  - apply (proxy_equality_and_hash_are_the_anchors hash_by_identity 5 (heap_of function_f)).
    + vm_compute. reflexivity.
    + vm_compute. reflexivity.
  - destruct (proxy_equality_and_hash_are_the_anchors hash_by_identity 5 world)
      as [_ Hwrap].
    destruct (Hwrap FunctionWrapper (VRef f_loc) (VRef callback_loc) (VRef config_loc))
      as (h' & W & Hcons & _ & _ & Hself).
    + exists (TOther "function"),
        {[ "__name__" := VStr "f"; "__annotations__" := VRef config_loc ]}.
      vm_compute. reflexivity.
    + exists h', W. split; [exact Hcons|]. apply Hself. vm_compute. reflexivity.
Defined.

Lemma bound_generic_init_inversion (n : nat) (h h' : heap) (b : loc) (c : wrapper_class)
    (d : gmap string value) (parent wrapped instance wrapper adapter params : value) :
  BoundGenericWrapper.__init__ (py_getattr (S n)) (py_setattr (S n))
    (<[b := Proxy c d]> h) (VRef b) parent wrapped instance wrapper adapter params = Ok h' →
  ∃ d', h' = <[b := Proxy c d']> h ∧
        (is_None adapter = false → d' !! "_self_target" = Some adapter).
Proof.
  unfold BoundGenericWrapper.__init__. do 2 store_step.
  intros (anchor & rq & rn & -> & Hanchor)%init_inversion.
  eexists. split; [done|]. intros ->%Hanchor.
  unfold dict_after_init. destruct rq, rn; by simplify_map_eq.
Qed.

Lemma bound_method_init_inversion (n : nat) (h h' : heap) (b : loc) (c : wrapper_class)
    (d : gmap string value) (wrapped instance wrapper adapter params : value) :
  BoundMethodWrapper.__init__ (py_getattr (S n)) (py_setattr (S n))
    (<[b := Proxy c d]> h) (VRef b) wrapped instance wrapper adapter params = Ok h' →
  ∃ d', h' = <[b := Proxy c d']> h ∧
        (is_None adapter = false → d' !! "_self_target" = Some adapter).
Proof.
  unfold BoundMethodWrapper.__init__. store_step.
  intros (anchor & rq & rn & -> & Hanchor)%init_inversion.
  eexists. split; [done|]. intros ->%Hanchor.
  unfold dict_after_init. destruct rq, rn; by simplify_map_eq.
Qed.

(** What [__get__] of a generic or method proxy leaves when it returns:
    the heap the binding of the wrapped object left, and in it a new
    instance of the bound class whose anchor is the adapter [__get__] read
    from its own anchor, unless that is null. *)
Lemma get_inversion (c : wrapper_class) (fuel : nat)
    (descr_get : heap → value → value → value → outcome (heap * value))
    (h h' : heap) (self instance owner bound : value) :
  (c = GenericWrapper ∧
   GenericWrapper.__get__ (py_getattr fuel) (py_setattr fuel) descr_get
     h self instance owner = Ok (h', bound)) ∨
  (c = MethodWrapper ∧
   MethodWrapper.__get__ (py_getattr fuel) (py_setattr fuel) descr_get
     h self instance owner = Ok (h', bound)) →
  ∃ w h1 descriptor adapter b d',
    py_getattr fuel h self "_self_wrapped" = Ok w ∧
    descr_get h w instance owner = Ok (h1, descriptor) ∧
    py_getattr fuel h1 self "_self_target" = Ok adapter ∧
    h1 !! b = None ∧
    bound = VRef b ∧
    h' = <[b := Proxy (bound_class c) d']> h1 ∧
    (is_None adapter = false → d' !! "_self_target" = Some adapter).
Proof.
  destruct fuel as [|n].
  { intros [[_ Hget] | [_ Hget]]; discriminate Hget. }
  intros [[-> Hget] | [-> Hget]].
  - unfold GenericWrapper.__get__ in Hget.
    destruct (py_getattr (S n) h self "_self_wrapped") as [w|e] eqn:Hw; [|done].
    rewrite bind_Ok in Hget.
    destruct (descr_get h w instance owner) as [[h1 descriptor]|e] eqn:Hd; [|done].
    rewrite bind_Ok in Hget.
    destruct (py_getattr (S n) h1 self "_self_wrapper") as [wrapper|e]; [|done].
    rewrite bind_Ok in Hget.
    destruct (py_getattr (S n) h1 self "_self_target") as [adapter|e] eqn:Ha; [|done].
    rewrite bind_Ok in Hget.
    destruct (py_getattr (S n) h1 self "_self_params") as [params|e]; [|done].
    rewrite bind_Ok in Hget. unfold allocate in Hget.
    destruct (BoundGenericWrapper.__init__ _ _ _ _ _ _ _ _ _ _) as [h2|e] eqn:Hinit; [|done].
    rewrite bind_Ok in Hget. injection Hget as <- <-.
    apply bound_generic_init_inversion in Hinit as (d' & -> & Hanchor).
    exists w, h1, descriptor, adapter, (fresh_loc h1), d'.
    repeat split; auto using fresh_loc_free.
  - unfold MethodWrapper.__get__ in Hget.
    destruct (py_getattr (S n) h self "_self_wrapped") as [w|e] eqn:Hw; [|done].
    rewrite bind_Ok in Hget.
    destruct (descr_get h w instance owner) as [[h1 descriptor]|e] eqn:Hd; [|done].
    rewrite bind_Ok in Hget.
    destruct (py_getattr (S n) h1 self "_self_wrapper") as [wrapper|e]; [|done].
    rewrite bind_Ok in Hget.
    destruct (py_getattr (S n) h1 self "_self_target") as [adapter|e] eqn:Ha; [|done].
    rewrite bind_Ok in Hget.
    destruct (py_getattr (S n) h1 self "_self_params") as [params|e]; [|done].
    rewrite bind_Ok in Hget. unfold allocate in Hget.
    destruct (BoundMethodWrapper.__init__ _ _ _ _ _ _ _ _ _) as [h2|e] eqn:Hinit; [|done].
    rewrite bind_Ok in Hget. injection Hget as <- <-.
    apply bound_method_init_inversion in Hinit as (d' & -> & Hanchor).
    exists w, h1, descriptor, adapter, (fresh_loc h1), d'.
    repeat split; auto using fresh_loc_free.
Qed.

(** Binding through wrapper instances leaves the existing instances as
    they are whenever the host's own binding does. *)
Lemma py_descr_get_keeps_proxies
    (host_bind : heap → value → value → value → outcome (heap * value)) (fuel : nat) :
  keeps_proxies host_bind → keeps_proxies (py_descr_get host_bind fuel).
Proof.
  intros Hhost. induction fuel as [|n IH]; [done|].
  intros h w instance owner h' r Hget l c d Hl.
  cbn [py_descr_get] in Hget.
  destruct (proxy_at h w) as [[[lw cw] dw]|] eqn:Hw; [|by eapply Hhost].
  assert (∀ cw', (cw' = GenericWrapper ∧
                  GenericWrapper.__get__ (py_getattr n) (py_setattr n)
                    (py_descr_get host_bind n) h w instance owner = Ok (h', r)) ∨
                 (cw' = MethodWrapper ∧
                  MethodWrapper.__get__ (py_getattr n) (py_setattr n)
                    (py_descr_get host_bind n) h w instance owner = Ok (h', r)) →
                 h' !! l = Some (Proxy c d)) as Hcase.
  { intros cw' (w0 & h1 & descriptor & adapter & b & d' & _ & Hd & _ & Hb & _ & -> & _)%get_inversion.
    pose proof (IH _ _ _ _ _ _ Hd _ _ _ Hl) as Hl1.
    rewrite lookup_insert_ne; [done|]. congruence. }
  destruct cw.
  - destruct (py_getattr n h w "_self_wrapped") as [t|e]; [|done].
    rewrite bind_Ok in Hget. by eapply IH.
  - apply (Hcase GenericWrapper). by left.
  - destruct (py_getattr n h w "_self_wrapped") as [t|e]; [|done].
    rewrite bind_Ok in Hget. by eapply IH.
  - destruct (py_getattr n h w "_self_wrapped") as [t|e]; [|done].
    rewrite bind_Ok in Hget. by eapply IH.
  - apply (Hcase MethodWrapper). by right.
Qed.

(** ** The anchor of a nested chain, and what can change it *)

(** C5, as stated, fails: the function that carries a wrapped-chain
    pointer to [g], wrapped twice, gives a proxy whose wrapped-chain
    pointer is [g], not the function that was wrapped. *)
Lemma nested_wrapping_of_decorated_function :
  let r := wrap_chain [FunctionWrapper; FunctionWrapper] depth world
             (VRef decorated_loc) (VRef callback_loc) (VRef config_loc) in
  py_getattr depth (heap_of r) (value_of r) "__wrapped__" = Ok (VRef g_loc) ∧
  py_getattr depth (heap_of r) (value_of r) "__wrapped__" ≠ Ok (VRef decorated_loc).
Proof. split; [vm_compute; reflexivity|]. vm_compute. discriminate. Qed.

(** The anchor a proxy holds is the one its wrapped-chain pointer shows. *)
Lemma anchor_read (m : nat) (h : heap) (l : loc) (A : value) :
  (∃ c d, h !! l = Some (Proxy c d) ∧ d !! "_self_target" = Some A) →
  py_getattr (S (S m)) h (VRef l) "__wrapped__" = Ok A.
Proof.
  intros (c & d & Hl & Ht).
  rewrite (py_getattr_proxy _ _ _ _ _ _ Hl).
  assert (WrapperBase.object___getattribute__ (py_getattr (S m)) h l c d "__wrapped__"
          = Ok A) as ->; [|done].
  rewrite <- (py_getattr_reserved m h l c d "_self_target" _ Hl eq_refl Ht).
  reflexivity.
Qed.

(** No operation other than the assignment of [_self_target] on the proxy
    itself changes the anchor the proxy holds. *)
Lemma operation_keeps_anchor (l : loc) (A : value) (h h' : heap) :
  operation (VRef l) h h' →
  (∃ c d, h !! l = Some (Proxy c d) ∧ d !! "_self_target" = Some A) →
  ∃ c d, h' !! l = Some (Proxy c d) ∧ d !! "_self_target" = Some A.
Proof.
  intros Hop (c & d & Hl & Ht).
  destruct Hop as [n v name val Hset Hnot
                  |c0 n wrapped wrapper adapter params P Hcons
                  |host_bind n w instance owner bound Hhost Hget].
  - pose proof (py_setattr_proxy_frame _ _ _ _ _ _ Hset _ _ _ Hl) as Hl'.
    eexists c, _. split; [exact Hl'|].
    case_decide as Hcase; [|done]. destruct Hcase as [-> Hpre].
    rewrite lookup_insert_ne; [done|]. intros ->. by apply Hnot.
  - exists c, d. split; [|done]. by eapply construct_keeps_objects.
  - exists c, d. split; [|done].
    by eapply (py_descr_get_keeps_proxies host_bind n Hhost).
Qed.

Lemma operations_keep_anchor (l : loc) (A : value) (h h' : heap) :
  rtc (operation (VRef l)) h h' →
  (∃ c d, h !! l = Some (Proxy c d) ∧ d !! "_self_target" = Some A) →
  ∃ c d, h' !! l = Some (Proxy c d) ∧ d !! "_self_target" = Some A.
Proof.
  induction 1 as [|h0 h1 h2 Hstep _ IH]; [done|].
  intros Hanchor. apply IH. by eapply operation_keeps_anchor.
Qed.

(** C5, amended: wrapping a host value [F] and then the resulting proxy
    again, any number of times and without adapter, gives a proxy whose
    wrapped-chain pointer is the pointer [F] itself carries, or [F] when it
    carries none, never an intermediate proxy; and the anchor is never
    recomputed: after any sequence of attribute writes (on whatever object,
    under whatever name), constructions and bindings, the pointer is what
    it was, the one way to change it being to assign [_self_target] on the
    proxy itself. *)
Theorem nested_wrapping_keeps_the_anchor
    (cs : list wrapper_class) (fuel : nat) (h : heap) (F wrapper params : value) :
  host_value h F → cs ≠ [] → (length cs ≤ fuel)%nat →
  ∃ h' W,
    wrap_chain cs fuel h F wrapper params = Ok (h', W) ∧
    (∀ n, py_getattr (S (S n)) h' W "__wrapped__" = Ok (host_anchor h F)) ∧
    (∀ h'', rtc (operation W) h' h'' →
       ∀ m, py_getattr (S (S m)) h'' W "__wrapped__" = Ok (host_anchor h F)) ∧
    (py_getattr 1 h F "__wrapped__" = Raise AttributeError → host_anchor h F = F) ∧
    (∀ pointer, py_getattr 1 h F "__wrapped__" = Ok pointer → host_anchor h F = pointer).
Proof.
  intros HF Hcs Hfuel.
  destruct (wrap_chain_wraps cs fuel h F wrapper params HF Hfuel)
    as (h' & W & Hchain & HF' & HA & HW).
  exists h', W. split; [done|].
  destruct cs as [|c cs]; [done|]. cbn [length] in HW.
  split; [|split; [|split]].
  - intros n. by eapply wraps_read_pointer.
  - intros h'' Hops m.
    inversion HW as [|k W' l c' d HW' Hl Hd Ht]; subst.
    apply anchor_read. eapply operations_keep_anchor; [exact Hops|]. eauto.
  - unfold host_anchor. by intros ->.
  - unfold host_anchor. by intros pointer ->.
Qed.

Lemma nested_wrapping_keeps_the_anchor_witness :
  ∃ h' W h'',
    wrap_chain [FunctionWrapper; GenericWrapper; FunctionWrapper] depth world
      (VRef f_loc) (VRef callback_loc) (VRef config_loc) = Ok (h', W) ∧
    (∀ n, py_getattr (S (S n)) h' W "__wrapped__" = Ok (VRef f_loc)) ∧
    py_setattr depth h' W "__wrapped__" (VRef g_loc) = Ok h'' ∧
    (∀ m, py_getattr (S (S m)) h'' W "__wrapped__" = Ok (VRef f_loc)).
Proof.
  destruct (nested_wrapping_keeps_the_anchor
              [FunctionWrapper; GenericWrapper; FunctionWrapper] depth world
              (VRef f_loc) (VRef callback_loc) (VRef config_loc))
    as (h' & W & Hchain & Hread & Hops & _).
  - exists (TOther "function"), {[ "__name__" := VStr "f"; "__annotations__" := VRef config_loc ]}.
    vm_compute. reflexivity.
  - discriminate.
  - vm_compute. lia.
  - assert (∃ h'', py_setattr depth h' W "__wrapped__" (VRef g_loc) = Ok h'') as [h'' Hset].
    { vm_compute in Hchain. injection Hchain as <- <-. eexists. vm_compute. reflexivity. }
    exists h', W, h''. split; [exact Hchain|]. split; [exact Hread|].
    split; [exact Hset|].
    apply Hops. apply rtc_once.
    apply (operation_write W h' h'' depth W "__wrapped__" (VRef g_loc) Hset).
    intros [_ ?]. discriminate.
Defined.

(** ** The anchor of a bound proxy *)

(** C9, as stated, fails: a generic proxy whose anchor is null (its
    wrapped object carries a null wrapped-chain pointer) hands that null
    to the bound proxy as adapter, where it counts as no adapter: the
    bound proxy takes the bound callable as its anchor. *)
Lemma bound_proxy_of_null_anchor_differs :
  py_getattr depth (heap_of bound_generic_null_pointer) (value_of generic_null_pointer)
    "__wrapped__" = Ok VNone ∧
  py_getattr depth (heap_of bound_generic_null_pointer) (value_of bound_generic_null_pointer)
    "__wrapped__" = Ok (VRef g_loc) ∧
  py_eq depth (heap_of bound_generic_null_pointer) (value_of bound_generic_null_pointer)
    (VRef g_loc) ≠
  py_eq depth (heap_of bound_generic_null_pointer) (value_of generic_null_pointer)
    (VRef g_loc).
Proof.
  split; [vm_compute; reflexivity|]. split; [vm_compute; reflexivity|].
  vm_compute. discriminate.
Qed.

(** C9, amended: a bound proxy produced by [__get__] of a generic or
    method proxy whose anchor is not null has the anchor of its parent, so
    that its wrapped-chain pointer, its equality and its hash are those of
    the parent. *)
Theorem bound_proxy_shares_the_anchor
    (host_hash : value → Z)
    (host_bind : heap → value → value → value → outcome (heap * value))
    (fuel : nat) (h h' : heap) (parent instance owner bound : value)
    (l : loc) (c : wrapper_class) (d : gmap string value) (A : value) :
  keeps_proxies host_bind →
  proxy_at h parent = Some (l, c, d) →
  c = GenericWrapper ∨ c = MethodWrapper →
  d !! "_self_target" = Some A →
  A ≠ VNone →
  py_descr_get host_bind fuel h parent instance owner = Ok (h', bound) →
  ∃ b d',
    bound = VRef b ∧
    h' !! b = Some (Proxy (bound_class c) d') ∧
    d' !! "_self_target" = Some A ∧
    h' !! l = Some (Proxy c d) ∧
    (∀ n, py_getattr (S (S n)) h' bound "__wrapped__" = Ok A ∧
          py_getattr (S (S n)) h' parent "__wrapped__" = Ok A) ∧
    (∀ n X, py_eq (S (S n)) h' bound X = py_eq (S (S n)) h' parent X) ∧
    (∀ n, py_hash host_hash (S (S n)) h' bound = py_hash host_hash (S (S n)) h' parent).
Proof.
  intros Hhost Hparent Hc HA Hnull Hget.
  pose proof (proxy_at_lookup _ _ _ _ _ Hparent) as [-> Hl].
  destruct fuel as [|fuel]; [done|].
  cbn [py_descr_get] in Hget. rewrite Hparent in Hget.
  assert ((c = GenericWrapper ∧
           GenericWrapper.__get__ (py_getattr fuel) (py_setattr fuel)
             (py_descr_get host_bind fuel) h (VRef l) instance owner = Ok (h', bound)) ∨
          (c = MethodWrapper ∧
           MethodWrapper.__get__ (py_getattr fuel) (py_setattr fuel)
             (py_descr_get host_bind fuel) h (VRef l) instance owner = Ok (h', bound)))
    as Hcase by (destruct Hc as [-> | ->]; auto).
  apply get_inversion in Hcase
    as (w & h1 & descriptor & adapter & b & d' & _ & Hd & Ha & Hb & -> & -> & Hanchor).
  pose proof (py_descr_get_keeps_proxies host_bind fuel Hhost _ _ _ _ _ _ Hd _ _ _ Hl) as Hl1.
  destruct fuel as [|n]; [done|].
  rewrite (py_getattr_reserved n h1 l c d "_self_target" _ Hl1 eq_refl HA) in Ha.
  injection Ha as <-.
  assert (is_None A = false) as HAn by (by destruct A).
  specialize (Hanchor HAn).
  assert (b ≠ l) as Hbl by congruence.
  set (h' := <[b := Proxy (bound_class c) d']> h1).
  assert (h' !! b = Some (Proxy (bound_class c) d')) as Hb' by apply lookup_insert_eq.
  assert (h' !! l = Some (Proxy c d)) as Hl' by (unfold h'; by rewrite lookup_insert_ne).
  assert (∀ m, py_getattr (S m) h' (VRef b) "_self_target" = Ok A) as Hrb.
  { intros m. by eapply py_getattr_reserved. }
  assert (∀ m, py_getattr (S m) h' (VRef l) "_self_target" = Ok A) as Hrl.
  { intros m. by eapply py_getattr_reserved. }
  assert (is_proxy h' (VRef b) = true) as Hpb by (unfold is_proxy, proxy_at; by rewrite Hb').
  assert (is_proxy h' (VRef l) = true) as Hpl by (unfold is_proxy, proxy_at; by rewrite Hl').
  exists b, d'. split; [done|]. split; [done|]. split; [done|]. split; [done|].
  split; [|split].
  - intros m. split.
    + rewrite (py_getattr_proxy _ _ _ _ _ _ Hb').
      assert (WrapperBase.object___getattribute__ (py_getattr (S m)) h' b
                (bound_class c) d' "__wrapped__" = Ok A) as ->; [|done].
      rewrite <- (Hrb m). reflexivity.
    + rewrite (py_getattr_proxy _ _ _ _ _ _ Hl').
      assert (WrapperBase.object___getattribute__ (py_getattr (S m)) h' l
                c d "__wrapped__" = Ok A) as ->; [|done].
      rewrite <- (Hrl m). reflexivity.
  - intros m X.
    rewrite (proxy_eq_is_anchor_eq (S m) h' (VRef b) A X Hpb (Hrb m)).
    by rewrite (proxy_eq_is_anchor_eq (S m) h' (VRef l) A X Hpl (Hrl m)).
  - intros m.
    rewrite (proxy_hash_is_anchor_hash host_hash (S m) h' (VRef b) A Hpb (Hrb m)).
    by rewrite (proxy_hash_is_anchor_hash host_hash (S m) h' (VRef l) A Hpl (Hrl m)).
Qed.

Lemma bind_to_self_keeps_proxies : keeps_proxies bind_to_self.
Proof. intros h w instance owner h1 r [= <- <-] l c d Hl. exact Hl. Defined.

Lemma bound_proxy_shares_the_anchor_witness :
  ∃ b d',
    value_of bound_generic_f = VRef b ∧
    heap_of bound_generic_f !! b = Some (Proxy BoundGenericWrapper d') ∧
    d' !! "_self_target" = Some (VRef f_loc) ∧
    (∀ n, py_getattr (S (S n)) (heap_of bound_generic_f) (value_of bound_generic_f)
            "__wrapped__" = Ok (VRef f_loc) ∧
          py_getattr (S (S n)) (heap_of bound_generic_f) (value_of generic_f)
            "__wrapped__" = Ok (VRef f_loc)) ∧
    (∀ n X, py_eq (S (S n)) (heap_of bound_generic_f) (value_of bound_generic_f) X =
            py_eq (S (S n)) (heap_of bound_generic_f) (value_of generic_f) X).
Proof.
  assert (∃ l d, proxy_at (heap_of generic_f) (value_of generic_f)
                   = Some (l, GenericWrapper, d) ∧
                 d !! "_self_target" = Some (VRef f_loc)) as (l & d & Hp & Hd).
  { eexists _, _. split; vm_compute; reflexivity. }
  destruct (bound_proxy_shares_the_anchor hash_by_identity bind_to_self depth
              (heap_of generic_f) (heap_of bound_generic_f) (value_of generic_f)
              VNone (VRef owner_loc) (value_of bound_generic_f) l GenericWrapper d
              (VRef f_loc))
    as (b & d' & Hb & Hl & Ht & _ & Hptr & Heq & _).
  - exact bind_to_self_keeps_proxies.
  - exact Hp.
  - left. reflexivity.
  - exact Hd.
  - discriminate.
  - vm_compute. reflexivity.
  - exists b, d'. split; [exact Hb|]. split; [exact Hl|]. split; [exact Ht|].
    split; [exact Hptr | exact Heq].
Defined.

(** * Further properties of the wrappers *)

(** ** Calls that keep the arguments *)



(** ** Equality, inequality and hashing against host values *)

Lemma host___eq___of_proxy_undecided (h : heap) (v P : value) :
  is_proxy h v = false → is_proxy h P = true → host___eq__ v P = VNotImplemented.
Proof.
  intros Hv HP.
  destruct P as [| | | | | |l| |]; try done.
  assert (v ≠ VRef l) as Hne by (intros ->; congruence).
  unfold host___eq__. destruct v; simpl; try done; by rewrite decide_False.
Qed.

Lemma proxy_eq_unfold (n : nat) (h : heap) (P X : value) :
  is_proxy h P = true →
  py_eq (S n) h P X = WrapperBase.__eq__ (py_getattr n) (py_eq n) h P X.
Proof.
  intros HP. cbn [py_eq].
  assert (type___eq__ (py_getattr n) (py_eq n) h P X =
          WrapperBase.__eq__ (py_getattr n) (py_eq n) h P X) as ->.
  { unfold type___eq__. by rewrite HP. }
  unfold WrapperBase.__eq__.
  destruct (py_getattr n h P "_self_target") as [t|e]; [|done].
  rewrite bind_Ok.
  destruct (py_eq n h t X) as [r|e] eqn:Heq; [|done].
  rewrite bind_Ok. by destruct (py_eq_bool _ _ _ _ _ Heq) as [b ->].
Qed.

(** With the proxy on the right the reflected [__eq__] decides. *)
Lemma eq_with_proxy_on_the_right (n : nat) (h : heap) (P T v : value) :
  is_proxy h P = true →
  is_proxy h v = false →
  py_getattr n h P "_self_target" = Ok T →
  py_eq (S n) h v P = py_eq n h T v.
Proof.
  intros HP Hv HT. cbn [py_eq].
  assert (type___eq__ (py_getattr n) (py_eq n) h v P = Ok VNotImplemented) as ->.
  { unfold type___eq__. rewrite Hv. f_equal.
    by apply (host___eq___of_proxy_undecided h). }
  rewrite bind_Ok. cbn [is_NotImplemented negb].
  assert (type___eq__ (py_getattr n) (py_eq n) h P v = py_eq n h T v) as ->.
  { unfold type___eq__, WrapperBase.__eq__. by rewrite HP, HT, bind_Ok. }
  destruct (py_eq n h T v) as [r|e] eqn:Heq; [|done].
  rewrite bind_Ok. by destruct (py_eq_bool _ _ _ _ _ Heq) as [b ->].
Qed.

(** X2: [==] between a proxy and a value that is not a proxy does not
    depend on the side the proxy stands on: on the right too the answer
    is the one of the proxy's [__eq__], the anchor compared to the value. *)
Theorem proxy_equality_is_symmetric
    (n : nat) (h : heap) (P T v : value) :
  is_proxy h P = true →
  is_proxy h v = false →
  py_getattr n h P "_self_target" = Ok T →
  py_eq (S n) h v P = py_eq n h T v ∧
  py_eq (S n) h v P = py_eq (S n) h P v.
Proof.
  intros HP Hv HT.
  rewrite (eq_with_proxy_on_the_right n h P T v HP Hv HT).
  split; [done|]. symmetry. by apply proxy_eq_is_anchor_eq.
Qed.

Lemma proxy_equality_is_symmetric_witness :
  py_eq depth (heap_of function_f) (VRef f_loc) (value_of function_f) = Ok (VBool true) ∧
  py_eq depth (heap_of function_f) (VRef g_loc) (value_of function_f) = Ok (VBool false).
Proof.
  split.
  - destruct (proxy_equality_is_symmetric 5 (heap_of function_f) (value_of function_f)
                (VRef f_loc) (VRef f_loc)) as [-> _];
      vm_compute; reflexivity.
  - destruct (proxy_equality_is_symmetric 5 (heap_of function_f) (value_of function_f)
                (VRef f_loc) (VRef g_loc)) as [-> _];
      vm_compute; reflexivity.
Defined.

(** X3: the [__ne__] of a proxy, with the [__eq__] of [WrapperBase],
    answers with a truth value whenever it answers, the negation of what
    [==] gives on the same operands; it never hands back the undecided
    sentinel. *)
Theorem proxy_inequality_is_decided
    (n : nat) (h : heap) (P X : value) :
  is_proxy h P = true →
  (∀ b, py_eq (S n) h P X = Ok (VBool b) → proxy_ne n h P X = Ok (VBool (negb b))) ∧
  (∀ r, proxy_ne n h P X = Ok r →
        ∃ b, r = VBool (negb b) ∧ py_eq (S n) h P X = Ok (VBool b)) ∧
  proxy_ne n h P X ≠ Ok VNotImplemented.
Proof.
  intros HP. rewrite (proxy_eq_unfold n h P X HP).
  unfold proxy_ne, WrapperBase.__ne__.
  destruct (WrapperBase.__eq__ (py_getattr n) (py_eq n) h P X) as [r|e] eqn:Heq.
  - assert (∃ b, r = VBool b) as [b ->].
    { rewrite <- (proxy_eq_unfold n h P X HP) in Heq. by eapply py_eq_bool. }
    rewrite bind_Ok. cbn [is_NotImplemented truthy].
    split; [by intros b' [= <-]|]. split; [|done].
    intros r [= <-]. by exists b.
  - rewrite bind_Raise. split; [done|]. split; done.
Qed.

Lemma proxy_inequality_is_decided_witness :
  proxy_ne 5 (heap_of function_f) (value_of function_f) (VRef g_loc) = Ok (VBool true).
Proof.
  destruct (proxy_inequality_is_decided 5 (heap_of function_f) (value_of function_f)
              (VRef g_loc)) as [Hne _].
  - vm_compute. reflexivity.
  - apply (Hne false). vm_compute. reflexivity.
Defined.

(** X4: two proxies with the same anchor, a value that is not itself a
    proxy, are equal to each other in both orders and have the same hash,
    whatever their classes. *)
Theorem proxies_of_one_anchor_are_equal
    (host_hash : value → Z) (n : nat) (h : heap) (P Q T : value) :
  is_proxy h P = true →
  is_proxy h Q = true →
  is_proxy h T = false →
  py_getattr (S (S n)) h P "_self_target" = Ok T →
  py_getattr (S n) h Q "_self_target" = Ok T →
  py_eq (S (S (S n))) h P Q = Ok (VBool true) ∧
  py_hash host_hash (S (S (S n))) h P = py_hash host_hash (S (S n)) h Q.
Proof.
  intros HP HQ HT HPT HQT. split.
  - rewrite (proxy_eq_is_anchor_eq (S (S n)) h P T Q HP HPT).
    rewrite (eq_with_proxy_on_the_right (S n) h Q T T HQ HT HQT).
    by apply host_value_eq_refl.
  - rewrite (proxy_hash_is_anchor_hash host_hash (S (S n)) h P T HP HPT).
    rewrite (proxy_hash_is_anchor_hash host_hash (S n) h Q T HQ HQT).
    cbn [py_hash]. by rewrite HT.
Qed.

Lemma proxies_of_one_anchor_are_equal_witness :
  py_eq depth (heap_of bound_generic_f) (value_of bound_generic_f) (value_of generic_f)
    = Ok (VBool true) ∧
  py_hash hash_by_identity depth (heap_of bound_generic_f) (value_of bound_generic_f) =
  py_hash hash_by_identity 5 (heap_of bound_generic_f) (value_of generic_f).
Proof.
  apply (proxies_of_one_anchor_are_equal hash_by_identity 3 (heap_of bound_generic_f)
           (value_of bound_generic_f) (value_of generic_f) (VRef f_loc));
    vm_compute; reflexivity.
Defined.

(** ** The class a proxy reports *)

(** X5: through any number of proxies the [__class__] read is the type of
    the innermost host value, so that the test for a class method or
    static method sees through nested proxies: it answers for the
    outermost proxy what it answers for the host value. *)
Theorem class_is_read_through_the_chain
    (h : heap) (F A : value) (k : nat) (W : value) (fuel : nat) :
  wraps h F A k W →
  k < fuel →
  py_getattr fuel h W "__class__" = Ok (VType (type_of h F)) ∧
  isinstance_classmethod_staticmethod (py_getattr fuel) h W =
    Ok (is_classmethod_or_staticmethod (type_of h F)).
Proof.
  intros HW.
  assert (∀ fuel, k < fuel → py_getattr fuel h W "__class__" = Ok (VType (type_of h F)))
    as Hclass.
  { clear fuel. induction HW as [HF | k W l c d HW IH Hl Hd Ht]; intros fuel Hfuel.
    - destruct fuel as [|n]; [lia|].
      destruct F as [| | | | | |f| |]; try done.
      destruct HF as (t & attrs & Hf). simpl. by rewrite Hf.
    - destruct fuel as [|[|n]]; [lia|lia|].
      rewrite (py_getattr_proxy _ _ _ _ _ _ Hl).
      assert (WrapperBase.object___getattribute__ (py_getattr (S n)) h l c d "__class__"
              = py_getattr (S n) h W "__class__") as ->.
      { change (WrapperBase.object___getattribute__ (py_getattr (S n)) h l c d "__class__")
          with (WrapperBase.__class__ (py_getattr (S n)) h (VRef l)).
        unfold WrapperBase.__class__.
        by rewrite (py_getattr_reserved n h l c d "_self_wrapped" _ Hl eq_refl Hd), bind_Ok. }
      rewrite IH by lia. done. }
  intros Hfuel. split; [by apply Hclass|].
  unfold isinstance_classmethod_staticmethod. rewrite (Hclass fuel Hfuel).
  destruct HW as [HF | k W l c d HW Hl Hd Ht].
  - by destruct (is_classmethod_or_staticmethod (type_of h F)).
  - cbn [type_of]. by rewrite Hl.
Qed.

Lemma class_is_read_through_the_chain_witness :
  py_getattr depth (heap_of nested_classmethod) (value_of nested_classmethod) "__class__"
    = Ok (VType TClassMethod) ∧
  isinstance_classmethod_staticmethod (py_getattr depth) (heap_of nested_classmethod)
    (value_of nested_classmethod) = Ok true.
Proof.
  assert (wraps (heap_of nested_classmethod) (VRef classmethod_loc) (VRef classmethod_loc)
            2 (value_of nested_classmethod)) as HW.
  { change (value_of nested_classmethod) with (VRef 11%positive).
    eapply (wraps_proxy _ _ _ 1 (VRef 10%positive) 11%positive).
    - eapply (wraps_proxy _ _ _ 0 (VRef classmethod_loc) 10%positive).
      + apply wraps_host. exists TClassMethod, ∅. vm_compute. reflexivity.
      + vm_compute. reflexivity.
      + vm_compute. reflexivity.
      + vm_compute. reflexivity.
    - vm_compute. reflexivity.
    - vm_compute. reflexivity.
    - vm_compute. reflexivity. }
  destruct (class_is_read_through_the_chain (heap_of nested_classmethod)
              (VRef classmethod_loc) (VRef classmethod_loc) 2
              (value_of nested_classmethod) depth HW) as [H1 H2].
  - vm_compute. lia.
  - split; [rewrite H1 | rewrite H2]; vm_compute; reflexivity.
Defined.

(** ** Construction *)

Lemma dict_after_init_state (d : gmap string value) (wrapped wrapper params anchor : value)
    (rq rn : outcome value) :
  let d' := dict_after_init d wrapped wrapper params anchor rq rn in
  d' !! "_self_wrapped" = Some wrapped ∧
  d' !! "_self_wrapper" = Some wrapper ∧
  d' !! "_self_params" = Some params ∧
  d' !! "_self_target" = Some anchor ∧
  d' !! "_self_instance" = d !! "_self_instance" ∧
  d' !! "_self_parent" = d !! "_self_parent".
Proof. unfold dict_after_init. destruct rq, rn; by simplify_map_eq. Qed.

(** X6: construction is not invasive.  Whatever is wrapped, when
    [__init__] returns the new proxy sits at a location that was free,
    holds the wrapped object, the callback and the configuration it was
    given, and every object that existed before, the wrapped one included,
    is exactly as it was. *)
Theorem construction_changes_no_object
    (c : wrapper_class) (fuel : nat) (h h' : heap)
    (wrapped wrapper adapter params P : value) :
  construct c fuel h wrapped wrapper adapter params = Ok (h', P) →
  ∃ l d,
    P = VRef l ∧
    h !! l = None ∧
    h' !! l = Some (Proxy c d) ∧
    d !! "_self_wrapped" = Some wrapped ∧
    d !! "_self_wrapper" = Some wrapper ∧
    d !! "_self_params" = Some params ∧
    (is_None adapter = false → d !! "_self_target" = Some adapter) ∧
    ∀ t o, h !! t = Some o → h' !! t = Some o.
Proof.
  destruct fuel as [|n]; [done|].
  unfold construct, allocate. intros Hcons.
  destruct (WrapperBase.__init__ _ _ _ _ _ _ _ _) as [h1|e] eqn:Hinit; [|done].
  rewrite bind_Ok in Hcons. injection Hcons as <- <-.
  apply init_inversion in Hinit as (anchor & rq & rn & -> & Hanchor).
  pose proof (fresh_loc_free h) as Hfree.
  destruct (dict_after_init_state ∅ wrapped wrapper params anchor rq rn)
    as (Hw & Hcb & Hps & Ht & _).
  eexists _, _. split; [done|]. split; [done|].
  split; [by rewrite lookup_insert_eq|].
  split; [done|]. split; [done|]. split; [done|].
  split; [by intros ->%Hanchor|].
  intros t o Ho. rewrite lookup_insert_ne; [done|]. congruence.
Qed.

Lemma construction_changes_no_object_witness :
  ∃ l d,
    value_of function_f = VRef l ∧
    world !! l = None ∧
    heap_of function_f !! l = Some (Proxy FunctionWrapper d) ∧
    d !! "_self_wrapped" = Some (VRef f_loc) ∧
    ∀ t o, world !! t = Some o → heap_of function_f !! t = Some o.
Proof.
  destruct (construction_changes_no_object FunctionWrapper depth world (heap_of function_f)
              (VRef f_loc) (VRef callback_loc) VNone (VRef config_loc) (value_of function_f))
    as (l & d & HP & Hfree & Hl & Hw & _ & _ & _ & Hframe).
  - vm_compute. reflexivity.
  - exists l, d. repeat split; assumption.
Defined.

(** Construction over a host value returns, with the dictionary
    [dict_after_init] describes for the reads made on the host value. *)
Lemma construct_on_host (c : wrapper_class) (n : nat) (h : heap)
    (F wrapper adapter params : value) :
  host_value h F →
  construct c (S n) h F wrapper adapter params =
    Ok (<[fresh_loc h :=
            Proxy c (dict_after_init ∅ F wrapper params
                       (if is_None adapter then host_anchor h F else adapter)
                       (py_getattr 1 h F "__qualname__")
                       (py_getattr 1 h F "__name__"))]> h,
        VRef (fresh_loc h)).
Proof.
  intros HF. pose proof (fresh_loc_free h) as Hfree.
  assert (∀ name o, py_getattr (S n) (<[fresh_loc h := o]> h) F name
                    = py_getattr 1 h F name) as Hread.
  { intros name o.
    destruct (host_value_insert h F (fresh_loc h) o HF Hfree) as [_ ->].
    by destruct (host_value_read h F n name HF) as [-> _]. }
  unfold construct, allocate.
  rewrite (init_result n h (fresh_loc h) c ∅ F wrapper adapter params
             (if is_None adapter then host_anchor h F else adapter)
             (py_getattr 1 h F "__wrapped__")
             (py_getattr 1 h F "__qualname__") (py_getattr 1 h F "__name__")).
  - by rewrite bind_Ok.
  - intros o. apply Hread.
  - intros o. apply Hread.
  - intros o. apply Hread.
  - by destruct (host_value_read h F 0 "__qualname__" HF).
  - by destruct (host_value_read h F 0 "__name__" HF).
  - destruct (is_None adapter); [|done].
    destruct (host_value_read h F 0 "__wrapped__" HF) as [_ Hs].
    unfold host_anchor.
    destruct (py_getattr 1 h F "__wrapped__") as [p|[]]; try done; auto.
Qed.

(** A name the proxy does not answer itself is read on the wrapped
    object. *)
Lemma py_getattr_forwarded (n : nat) (h : heap) (l : loc) (c : wrapper_class)
    (d : gmap string value) (name : string) (W : value) :
  h !! l = Some (Proxy c d) →
  is_property name = false →
  d !! name = None →
  name ≠ "WRAPPER_ARGLIST" →
  type_defines c name = false →
  d !! "_self_wrapped" = Some W →
  py_getattr (S (S n)) h (VRef l) name = py_getattr (S n) h W name.
Proof.
  intros Hl Hprop Hd Harg Htype Hw.
  rewrite (py_getattr_proxy _ _ _ _ _ _ Hl).
  unfold WrapperBase.object___getattribute__, WrapperBase.__getattr__.
  rewrite Hprop, Hd, decide_False, Htype by done.
  cbn [except_AttributeError].
  by rewrite (py_getattr_reserved n h l c d "_self_wrapped" _ Hl eq_refl Hw), bind_Ok.
Qed.

Lemma copied_name_facts (c : wrapper_class) (name : string) :
  copied_name name →
  is_property name = false ∧ name ≠ "WRAPPER_ARGLIST" ∧ type_defines c name = false ∧
  String.prefix "_self_" name = false ∧ name ≠ "__class__".
Proof. intros [-> | ->]; by destruct c. Qed.

Lemma dict_after_init_copied (wrapped wrapper params anchor : value)
    (rq rn : outcome value) (name : string) :
  copied_name name →
  dict_after_init ∅ wrapped wrapper params anchor rq rn !! name =
    match (if decide (name = "__qualname__") then rq else rn) with
    | Ok v => Some v
    | Raise _ => None
    end.
Proof.
  unfold dict_after_init.
  intros [-> | ->]; destruct rq, rn; by simplify_map_eq.
Qed.

(** X7: construction over a host value always returns, whether or not the
    value has a name or a qualified name, and the proxy then shows for
    both exactly what the host value showed when it was wrapped: the same
    value, or the same [AttributeError]. *)
Theorem construction_snapshots_the_names
    (c : wrapper_class) (n : nat) (h : heap) (F wrapper adapter params : value)
    (name : string) :
  host_value h F →
  copied_name name →
  ∃ h' P,
    construct c (S n) h F wrapper adapter params = Ok (h', P) ∧
    ∀ m, py_getattr (S (S m)) h' P name = py_getattr 1 h F name.
Proof.
  intros HF Hname.
  rewrite (construct_on_host c n h F wrapper adapter params HF).
  eexists _, _. split; [done|]. intros m.
  set (d := dict_after_init _ _ _ _ _ _ _).
  set (l := fresh_loc h).
  pose proof (fresh_loc_free h) as Hfree. fold l in Hfree.
  assert (<[l := Proxy c d]> h !! l = Some (Proxy c d)) as Hl by apply lookup_insert_eq.
  destruct (copied_name_facts c name Hname) as (Hprop & Harg & Htype & _ & _).
  pose proof (dict_after_init_copied F wrapper params
                (if is_None adapter then host_anchor h F else adapter)
                (py_getattr 1 h F "__qualname__") (py_getattr 1 h F "__name__")
                name Hname) as Hd.
  fold d in Hd.
  assert ((if decide (name = "__qualname__") then py_getattr 1 h F "__qualname__"
           else py_getattr 1 h F "__name__") = py_getattr 1 h F name) as Hsel.
  { destruct Hname as [-> | ->]; by case_decide. }
  rewrite Hsel in Hd.
  destruct (host_value_read h F 0 name HF) as [_ Hs].
  destruct (py_getattr 1 h F name) as [v|e] eqn:Hread.
  - by apply (py_getattr_own _ _ _ _ _ _ _ Hl Hprop Hd).
  - destruct (dict_after_init_state ∅ F wrapper params
                (if is_None adapter then host_anchor h F else adapter)
                (py_getattr 1 h F "__qualname__") (py_getattr 1 h F "__name__"))
      as (Hw & _).
    rewrite (py_getattr_forwarded m _ l c d name F Hl Hprop Hd Harg Htype Hw).
    destruct (host_value_insert h F l (Proxy c d) HF Hfree) as [_ ->].
    destruct (host_value_read h F m name HF) as [-> _]. done.
Qed.

Lemma construction_snapshots_the_names_witness :
  ∃ h' P,
    construct FunctionWrapper depth world (VRef callback_loc) (VRef callback_loc)
      VNone (VRef config_loc) = Ok (h', P) ∧
    ∀ m, py_getattr (S (S m)) h' P "__name__" = Raise AttributeError.
Proof.
  destruct (construction_snapshots_the_names FunctionWrapper 5 world (VRef callback_loc)
              (VRef callback_loc) VNone (VRef config_loc) "__name__")
    as (h' & P & Hcons & Hread).
  - exists (TOther "function"), ∅. vm_compute. reflexivity.
  - right. reflexivity.
  - exists h', P. split; [exact Hcons|]. intros m. rewrite Hread.
    vm_compute. reflexivity.
Defined.

(** ** Names written through a proxy *)

(** X8: the name and the qualified name are snapshots.  After a function
    is wrapped, a new name written through the proxy lands on the
    function, but the proxy goes on showing the name the function had when
    it was wrapped; only when the function had none does the proxy show
    the new one. *)
Theorem name_written_through_proxy_is_not_refreshed
    (c : wrapper_class) (n : nat) (h : heap) (f : loc) (t : pytype)
    (attrs : gmap string value) (wrapper adapter params new : value) (name : string) :
  h !! f = Some (Plain t attrs) →
  copied_name name →
  ∃ h1 P h2,
    construct c (S n) h (VRef f) wrapper adapter params = Ok (h1, P) ∧
    py_setattr (S (S n)) h1 P name new = Ok h2 ∧
    (∀ m, py_getattr (S m) h2 (VRef f) name = Ok new) ∧
    (∀ m, py_getattr (S (S m)) h2 P name =
          Ok (match attrs !! name with Some old => old | None => new end)).
Proof.
  intros Hf Hname.
  assert (host_value h (VRef f)) as HF by (by exists t, attrs).
  rewrite (construct_on_host c n h (VRef f) wrapper adapter params HF).
  set (A := if is_None adapter then host_anchor h (VRef f) else adapter).
  set (d := dict_after_init _ _ _ _ _ _ _).
  set (l := fresh_loc h).
  pose proof (fresh_loc_free h) as Hfree. fold l in Hfree.
  assert (l ≠ f) as Hlf by congruence.
  set (h1 := <[l := Proxy c d]> h).
  assert (h1 !! l = Some (Proxy c d)) as Hl by apply lookup_insert_eq.
  assert (h1 !! f = Some (Plain t attrs)) as Hf1
    by (unfold h1; by rewrite lookup_insert_ne).
  destruct (copied_name_facts c name Hname) as (Hprop & Harg & Htype & Hpre & Hclass).
  destruct (dict_after_init_state ∅ (VRef f) wrapper params A
              (py_getattr 1 h (VRef f) "__qualname__") (py_getattr 1 h (VRef f) "__name__"))
    as (Hw & _).
  fold d in Hw.
  set (h2 := <[f := Plain t (<[name := new]> attrs)]> h1).
  exists h1, (VRef l), h2. split; [done|].
  split; [by eapply attribute_write_reaches_host_target|].
  assert (h2 !! f = Some (Plain t (<[name := new]> attrs))) as Hf2
    by apply lookup_insert_eq.
  assert (h2 !! l = Some (Proxy c d)) as Hl2
    by (unfold h2; by rewrite lookup_insert_ne).
  assert (∀ m, py_getattr (S m) h2 (VRef f) name = Ok new) as Hnew.
  { intros m. cbn [py_getattr]. rewrite Hf2. unfold host_getattr.
    rewrite decide_False by done. by rewrite lookup_insert_eq. }
  split; [done|]. intros m.
  pose proof (dict_after_init_copied (VRef f) wrapper params A
                (py_getattr 1 h (VRef f) "__qualname__")
                (py_getattr 1 h (VRef f) "__name__") name Hname) as Hd.
  fold d in Hd.
  assert ((if decide (name = "__qualname__") then py_getattr 1 h (VRef f) "__qualname__"
           else py_getattr 1 h (VRef f) "__name__") =
          match attrs !! name with Some v => Ok v | None => Raise AttributeError end)
    as Hsel.
  { destruct Hname as [-> | ->]; case_decide; try done;
      cbn [py_getattr]; rewrite Hf; unfold host_getattr;
      by rewrite decide_False. }
  rewrite Hsel in Hd.
  destruct (attrs !! name) as [old|].
  - by apply (py_getattr_own _ _ _ _ _ _ _ Hl2 Hprop Hd).
  - rewrite (py_getattr_forwarded m h2 l c d name (VRef f) Hl2 Hprop Hd Harg Htype Hw).
    apply Hnew.
Qed.

Lemma name_written_through_proxy_is_not_refreshed_witness :
  ∃ h1 P h2,
    construct FunctionWrapper depth world (VRef f_loc) (VRef callback_loc) VNone
      (VRef config_loc) = Ok (h1, P) ∧
    py_setattr (S depth) h1 P "__name__" (VStr "renamed") = Ok h2 ∧
    (∀ m, py_getattr (S m) h2 (VRef f_loc) "__name__" = Ok (VStr "renamed")) ∧
    (∀ m, py_getattr (S (S m)) h2 P "__name__" = Ok (VStr "f")).
Proof.
  destruct (name_written_through_proxy_is_not_refreshed FunctionWrapper 5 world f_loc
              (TOther "function")
              {[ "__name__" := VStr "f"; "__annotations__" := VRef config_loc ]}
              (VRef callback_loc) VNone (VRef config_loc) (VStr "renamed") "__name__")
    as (h1 & P & h2 & Hcons & Hset & Hf & HP).
  - vm_compute. reflexivity.
  - right. reflexivity.
  - exists h1, P, h2. split; [exact Hcons|]. split; [exact Hset|].
    split; [exact Hf|]. exact HP.
Defined.

Lemma forwarded_name_facts (c : wrapper_class) (name : string) :
  forwarded_name c name = true →
  String.prefix "_self_" name = false ∧
  (name = "__module__" ∨ name = "__doc__" ∨
   (is_property name = false ∧ type_defines c name = false ∧
    name ≠ "WRAPPER_ARGLIST")).
Proof.
  unfold forwarded_name.
  intros [Hlive%bool_decide_eq_true | Hplain]%orb_prop.
  - repeat (apply elem_of_cons in Hlive as [-> | Hlive]; [by auto|]).
    by apply elem_of_nil in Hlive.
  - apply andb_prop in Hplain as [[[Hpre%negb_true_iff Hdunder%negb_true_iff]%andb_prop
        Htype%negb_true_iff]%andb_prop Harg%negb_true_iff%bool_decide_eq_false].
    split; [done|]. right. right. split; [|done].
    unfold is_property. apply bool_decide_eq_false. intros Hin.
    repeat (apply elem_of_cons in Hin as [-> | Hin]; [done|]).
    by apply elem_of_nil in Hin.
Qed.

(** A forwarded name is read on the wrapped object, be it one of the two
    properties that are live views ([__module__], [__doc__]) or a name
    only the [__getattr__] hook answers. *)
Lemma py_getattr_live (n : nat) (h : heap) (l : loc) (c : wrapper_class)
    (d : gmap string value) (name : string) (W : value) :
  h !! l = Some (Proxy c d) →
  forwarded_name c name = true →
  d !! name = None →
  d !! "_self_wrapped" = Some W →
  py_getattr (S (S n)) h (VRef l) name = py_getattr (S n) h W name.
Proof.
  intros Hl Hfwd Hd Hw.
  destruct (forwarded_name_facts c name Hfwd) as (Hpre & Hcases).
  assert (name = "__module__" ∨ name = "__doc__" ∨
          (is_property name = false ∧ type_defines c name = false ∧
           name ≠ "WRAPPER_ARGLIST")) as [Hname | [Hname | (Hprop & Htype & Harg)]]
    by exact Hcases;
    [| |by apply (py_getattr_forwarded n h l c d name W)].
  all: rewrite (py_getattr_proxy _ _ _ _ _ _ Hl);
    unfold WrapperBase.object___getattribute__;
    assert (is_property name = true) as -> by (by subst name);
    assert (WrapperBase.property_get (py_getattr (S n)) name h (VRef l) =
            py_getattr (S n) h W name) as ->
      by (subst name; unfold WrapperBase.property_get;
          repeat (case_decide; try done);
          unfold WrapperOverrideMethods.__module__, WrapperOverrideMethods.__doc__;
          by rewrite (py_getattr_reserved n h l c d "_self_wrapped" _ Hl eq_refl Hw),
               bind_Ok);
    destruct (py_getattr (S n) h W name) as [v|[]] eqn:Hread; try done;
    cbn [except_AttributeError]; unfold WrapperBase.__getattr__;
    by rewrite (py_getattr_reserved n h l c d "_self_wrapped" _ Hl eq_refl Hw), bind_Ok.
Qed.

(** X9: a forwarded name is a live view in both directions.  Read through
    the proxy it is what the Target shows, value or exception; a write
    through the proxy is the write on the Target, with its outcome, refusal
    included; and when the Target accepts the write, the proxy itself is
    as it was and goes on showing what the Target shows. *)
Theorem forwarded_name_is_a_live_view
    (h : heap) (l : loc) (c : wrapper_class) (d : gmap string value)
    (T : value) (name : string) :
  h !! l = Some (Proxy c d) →
  d !! "_self_wrapped" = Some T →
  forwarded_name c name = true →
  d !! name = None →
  (∀ n, py_getattr (S (S n)) h (VRef l) name = py_getattr (S n) h T name) ∧
  (∀ n v, py_setattr (S (S n)) h (VRef l) name v = py_setattr (S n) h T name v) ∧
  (∀ n v h',
     py_setattr (S (S n)) h (VRef l) name v = Ok h' →
     h' !! l = h !! l ∧
     ∀ m, py_getattr (S (S m)) h' (VRef l) name = py_getattr (S m) h' T name).
Proof.
  intros Hl Hw Hfwd Hd.
  destruct (forwarded_name_facts c name Hfwd) as (Hpre & _).
  split; [|split].
  - intros n. by apply (py_getattr_live n h l c d name T).
  - intros n v. rewrite (py_setattr_forwarded _ _ _ _ _ _ _ Hl Hpre).
    by rewrite (py_getattr_reserved n h l c d "_self_wrapped" _ Hl eq_refl Hw), bind_Ok.
  - intros n v h' Hset.
    pose proof (py_setattr_keeps_proxies _ _ _ _ _ _ Hpre Hset _ _ _ Hl) as Hl'.
    split; [by rewrite Hl, Hl'|].
    intros m. by apply (py_getattr_live m h' l c d name T).
Qed.

Lemma forwarded_name_is_a_live_view_witness :
  (∀ n, py_getattr (S (S n)) (heap_of function_f) (value_of function_f) "calls"
        = py_getattr (S n) (heap_of function_f) (VRef f_loc) "calls") ∧
  (∀ n v, py_setattr (S (S n)) (heap_of function_f) (value_of function_f) "calls" v
          = py_setattr (S n) (heap_of function_f) (VRef f_loc) "calls" v) ∧
  (∀ n v h',
     py_setattr (S (S n)) (heap_of function_f) (value_of function_f) "calls" v = Ok h' →
     h' !! 10%positive = heap_of function_f !! 10%positive ∧
     ∀ m, py_getattr (S (S m)) h' (value_of function_f) "calls"
          = py_getattr (S m) h' (VRef f_loc) "calls").
Proof.
  assert (∃ d, value_of function_f = VRef 10%positive ∧
               heap_of function_f !! 10%positive = Some (Proxy FunctionWrapper d) ∧
               d !! "_self_wrapped" = Some (VRef f_loc) ∧
               d !! "calls" = None) as (d & HP & Hl & Hw & Hd).
  { eexists. split; [vm_compute; reflexivity|].
    split; [vm_compute; reflexivity|]. split; vm_compute; reflexivity. }
  rewrite HP.
  apply (forwarded_name_is_a_live_view (heap_of function_f) 10%positive FunctionWrapper d
           (VRef f_loc) "calls" Hl Hw).
  - vm_compute. reflexivity.
  - exact Hd.
Defined.

(** X10: no attribute write, on whatever object and through however many
    proxies, creates or removes a wrapper instance or changes its class:
    every wrapper instance of the heap before the write is there after it,
    and the other way round; and the one change a write makes to an instance
    dictionary is to store the value under the name written, when the
    write is on that very instance and the name is reserved. *)
Theorem writes_touch_dictionaries_under_reserved_names_only (fuel : nat) :
  ∀ (h h' : heap) (v : value) (name : string) (val : value),
    py_setattr fuel h v name val = Ok h' →
    (∀ l c d, h !! l = Some (Proxy c d) →
       h' !! l =
         Some (Proxy c (if decide (v = VRef l ∧ String.prefix "_self_" name = true)
                        then <[name := val]> d else d))) ∧
    (∀ l c d', h' !! l = Some (Proxy c d') → ∃ d, h !! l = Some (Proxy c d)).
Proof.
  intros h h' v name val Hset. split.
  - by apply (py_setattr_proxy_frame fuel h h' v name val).
  - by apply (py_setattr_makes_no_proxy fuel h h' v name val).
Qed.

Lemma writes_touch_dictionaries_under_reserved_names_only_witness :
  ∃ h',
    py_setattr depth (heap_of function_f) (value_of function_f) "_self_note" (VInt 1)
      = Ok h' ∧
    (∀ l c d, heap_of function_f !! l = Some (Proxy c d) →
       h' !! l =
         Some (Proxy c (if decide (value_of function_f = VRef l ∧
                                   String.prefix "_self_" "_self_note" = true)
                        then <["_self_note" := VInt 1]> d else d))) ∧
    (∀ l c d', h' !! l = Some (Proxy c d') →
       ∃ d, heap_of function_f !! l = Some (Proxy c d)).
Proof.
  assert (∃ h',
            py_setattr depth (heap_of function_f) (value_of function_f) "_self_note" (VInt 1)
              = Ok h') as (h' & Hset).
  { eexists. vm_compute. reflexivity. }
  exists h'. split; [exact Hset|].
  exact (writes_touch_dictionaries_under_reserved_names_only depth _ _ _ _ _ Hset).
Defined.

(** ** Binding, then calling *)

(** The state of the bound proxy [__get__] leaves when it returns. *)
Lemma get_state (c : wrapper_class) (fuel : nat)
    (descr_get : heap → value → value → value → outcome (heap * value))
    (h h' : heap) (self instance owner bound : value) :
  (c = GenericWrapper ∧
   GenericWrapper.__get__ (py_getattr fuel) (py_setattr fuel) descr_get
     h self instance owner = Ok (h', bound)) ∨
  (c = MethodWrapper ∧
   MethodWrapper.__get__ (py_getattr fuel) (py_setattr fuel) descr_get
     h self instance owner = Ok (h', bound)) →
  ∃ w h1 descriptor wrapper params b d',
    py_getattr fuel h self "_self_wrapped" = Ok w ∧
    descr_get h w instance owner = Ok (h1, descriptor) ∧
    py_getattr fuel h1 self "_self_wrapper" = Ok wrapper ∧
    py_getattr fuel h1 self "_self_params" = Ok params ∧
    h1 !! b = None ∧
    bound = VRef b ∧
    h' = <[b := Proxy (bound_class c) d']> h1 ∧
    d' !! "_self_instance" = Some instance ∧
    d' !! "_self_wrapped" = Some descriptor ∧
    d' !! "_self_wrapper" = Some wrapper ∧
    d' !! "_self_params" = Some params ∧
    (c = GenericWrapper → d' !! "_self_parent" = Some self).
Proof.
  destruct fuel as [|n].
  { intros [[_ Hget] | [_ Hget]]; discriminate Hget. }
  intros [[-> Hget] | [-> Hget]].
  - unfold GenericWrapper.__get__ in Hget.
    destruct (py_getattr (S n) h self "_self_wrapped") as [w|e] eqn:Hw; [|done].
    rewrite bind_Ok in Hget.
    destruct (descr_get h w instance owner) as [[h1 descriptor]|e] eqn:Hd; [|done].
    rewrite bind_Ok in Hget.
    destruct (py_getattr (S n) h1 self "_self_wrapper") as [wrapper|e] eqn:Hcb; [|done].
    rewrite bind_Ok in Hget.
    destruct (py_getattr (S n) h1 self "_self_target") as [adapter|e] eqn:Ha; [|done].
    rewrite bind_Ok in Hget.
    destruct (py_getattr (S n) h1 self "_self_params") as [params|e] eqn:Hps; [|done].
    rewrite bind_Ok in Hget. unfold allocate in Hget.
    destruct (BoundGenericWrapper.__init__ _ _ _ _ _ _ _ _ _ _) as [h2|e] eqn:Hinit; [|done].
    rewrite bind_Ok in Hget. injection Hget as <- <-.
    unfold BoundGenericWrapper.__init__ in Hinit.
    do 2 (rewrite store_reserved in Hinit by reflexivity; rewrite bind_Ok in Hinit).
    apply init_inversion in Hinit as (anchor & rq & rn & -> & _).
    destruct (dict_after_init_state
                (<["_self_instance" := instance]> (<["_self_parent" := self]> ∅))
                descriptor wrapper params anchor rq rn) as (? & ? & ? & _ & Hi & Hpar).
    exists w, h1, descriptor, wrapper, params, (fresh_loc h1). eexists.
    repeat split; eauto using fresh_loc_free;
      try intros _; rewrite ?Hi, ?Hpar; by simplify_map_eq.
  - unfold MethodWrapper.__get__ in Hget.
    destruct (py_getattr (S n) h self "_self_wrapped") as [w|e] eqn:Hw; [|done].
    rewrite bind_Ok in Hget.
    destruct (descr_get h w instance owner) as [[h1 descriptor]|e] eqn:Hd; [|done].
    rewrite bind_Ok in Hget.
    destruct (py_getattr (S n) h1 self "_self_wrapper") as [wrapper|e] eqn:Hcb; [|done].
    rewrite bind_Ok in Hget.
    destruct (py_getattr (S n) h1 self "_self_target") as [adapter|e] eqn:Ha; [|done].
    rewrite bind_Ok in Hget.
    destruct (py_getattr (S n) h1 self "_self_params") as [params|e] eqn:Hps; [|done].
    rewrite bind_Ok in Hget. unfold allocate in Hget.
    destruct (BoundMethodWrapper.__init__ _ _ _ _ _ _ _ _ _) as [h2|e] eqn:Hinit; [|done].
    rewrite bind_Ok in Hget. injection Hget as <- <-.
    unfold BoundMethodWrapper.__init__ in Hinit.
    rewrite store_reserved in Hinit by reflexivity. rewrite bind_Ok in Hinit.
    apply init_inversion in Hinit as (anchor & rq & rn & -> & _).
    destruct (dict_after_init_state (<["_self_instance" := instance]> ∅)
                descriptor wrapper params anchor rq rn) as (? & ? & ? & _ & Hi & _).
    exists w, h1, descriptor, wrapper, params, (fresh_loc h1). eexists.
    repeat split; eauto using fresh_loc_free;
      try done; rewrite ?Hi; by simplify_map_eq.
Qed.

(** The bound proxy a generic or method proxy gives: where it sits, what
    it holds, and that the parent is as it was. *)
Lemma binding_state
    (host_bind : heap → value → value → value → outcome (heap * value))
    (fuel : nat) (h h' : heap) (parent instance owner bound W wrapper params : value)
    (l : loc) (c : wrapper_class) (d : gmap string value) :
  keeps_proxies host_bind →
  proxy_at h parent = Some (l, c, d) →
  c = GenericWrapper ∨ c = MethodWrapper →
  d !! "_self_wrapped" = Some W →
  d !! "_self_wrapper" = Some wrapper →
  d !! "_self_params" = Some params →
  py_descr_get host_bind fuel h parent instance owner = Ok (h', bound) →
  ∃ fuel' h1 descriptor b d',
    fuel = S (S fuel') ∧
    py_descr_get host_bind (S fuel') h W instance owner = Ok (h1, descriptor) ∧
    bound = VRef b ∧
    h' !! b = Some (Proxy (bound_class c) d') ∧
    h' !! l = Some (Proxy c d) ∧
    d' !! "_self_instance" = Some instance ∧
    d' !! "_self_wrapped" = Some descriptor ∧
    d' !! "_self_wrapper" = Some wrapper ∧
    d' !! "_self_params" = Some params ∧
    (c = GenericWrapper → d' !! "_self_parent" = Some parent) ∧
    (∀ x cx dx, h !! x = Some (Proxy cx dx) → x ≠ b ∧ h' !! x = Some (Proxy cx dx)).
Proof.
  intros Hhost Hparent Hc HW Hcb Hps Hget.
  pose proof (proxy_at_lookup _ _ _ _ _ Hparent) as [-> Hl].
  destruct fuel as [|fuel]; [done|].
  cbn [py_descr_get] in Hget. rewrite Hparent in Hget.
  assert ((c = GenericWrapper ∧
           GenericWrapper.__get__ (py_getattr fuel) (py_setattr fuel)
             (py_descr_get host_bind fuel) h (VRef l) instance owner = Ok (h', bound)) ∨
          (c = MethodWrapper ∧
           MethodWrapper.__get__ (py_getattr fuel) (py_setattr fuel)
             (py_descr_get host_bind fuel) h (VRef l) instance owner = Ok (h', bound)))
    as Hcase by (destruct Hc as [-> | ->]; auto).
  apply get_state in Hcase
    as (w & h1 & descriptor & wrapper' & params' & b & d' &
        Hw & Hd & Hcb1 & Hps1 & Hb & -> & -> & Hi' & Hw' & Hcb' & Hps' & Hpar').
  pose proof (py_descr_get_keeps_proxies host_bind fuel Hhost _ _ _ _ _ _ Hd _ _ _ Hl) as Hl1.
  destruct fuel as [|n]; [done|].
  rewrite (py_getattr_reserved n h l c d "_self_wrapped" _ Hl eq_refl HW) in Hw.
  rewrite (py_getattr_reserved n h1 l c d "_self_wrapper" _ Hl1 eq_refl Hcb) in Hcb1.
  rewrite (py_getattr_reserved n h1 l c d "_self_params" _ Hl1 eq_refl Hps) in Hps1.
  injection Hw as <-. injection Hcb1 as <-. injection Hps1 as <-.
  assert (b ≠ l) as Hbl by congruence.
  exists n, h1, descriptor, b, d'. split; [done|]. split; [done|]. split; [done|].
  split; [apply lookup_insert_eq|].
  split; [by rewrite lookup_insert_ne|].
  do 5 (split; [done|]).
  intros x cx dx Hx.
  pose proof (py_descr_get_keeps_proxies host_bind (S n) Hhost _ _ _ _ _ _ Hd _ _ _ Hx) as Hx1.
  assert (x ≠ b) as Hxb by congruence.
  split; [done|]. by rewrite lookup_insert_ne.
Qed.






(** ** Textual representation *)

(** X13: the representation of a host value under any number of proxies
    names the class of the outermost proxy and the host value itself: the
    proxies in between do not show. *)
Theorem repr_names_the_class_and_the_innermost_entity
    (host_str : heap → value → string) (c : wrapper_class) (cs : list wrapper_class)
    (fuel : nat) (h : heap) (F wrapper params : value) :
  host_value h F →
  py_getattr 1 h F "__wrapped__" = Raise AttributeError →
  (length (c :: cs) ≤ fuel)%nat →
  ∃ h' W,
    wrap_chain (c :: cs) fuel h F wrapper params = Ok (h', W) ∧
    ∀ n, py_str host_str (S (S n)) h' W =
           Ok ("<" ++ class_name c ++ " for " ++ host_str h' F ++ ">").
Proof.
  intros HF Hnone Hfuel. cbn [length] in Hfuel.
  destruct (wrap_chain_wraps cs fuel h F wrapper params HF) as (h1 & W1 & Hchain & HF1 & HA1 & HW1);
    [lia|].
  assert (host_anchor h F = F) as HA by (unfold host_anchor; by rewrite Hnone).
  rewrite <- HA1 in HW1.
  destruct (construct_on_chain c fuel h1 F wrapper params (length cs) W1 HW1)
    as (h' & l & d & Hcons & Hfree & -> & Ht & Hd); [lia|].
  rewrite HA1, HA in Ht.
  exists (<[l := Proxy c d]> h1), (VRef l). split.
  { cbn [wrap_chain]. by rewrite Hchain, bind_Ok. }
  intros n.
  assert (<[l := Proxy c d]> h1 !! l = Some (Proxy c d)) as Hl by apply lookup_insert_eq.
  assert (proxy_at (<[l := Proxy c d]> h1) F = None) as HFp.
  { pose proof (host_value_not_proxy _ F (proj1 (host_value_insert h1 F l (Proxy c d) HF1 Hfree)))
      as Hnp.
    unfold is_proxy in Hnp. by destruct (proxy_at _ F). }
  cbn [py_str]. unfold proxy_at at 1. rewrite Hl.
  unfold WrapperBase.__repr__.
  rewrite (py_getattr_reserved n _ l c d "_self_target" _ Hl eq_refl Ht), bind_Ok.
  by rewrite HFp, bind_Ok.
Qed.

Lemma repr_names_the_class_and_the_innermost_entity_witness :
  ∃ h' W,
    wrap_chain [GenericWrapper; FunctionWrapper] depth world (VRef f_loc)
      (VRef callback_loc) (VRef config_loc) = Ok (h', W) ∧
    ∀ n, py_str str_by_location (S (S n)) h' W = Ok "<GenericWrapper for <function f>>".
Proof.
  destruct (repr_names_the_class_and_the_innermost_entity str_by_location
              GenericWrapper [FunctionWrapper] depth world (VRef f_loc)
              (VRef callback_loc) (VRef config_loc))
    as (h' & W & Hchain & Hstr).
  - exists (TOther "function"),
      {[ "__name__" := VStr "f"; "__annotations__" := VRef config_loc ]}.
    vm_compute. reflexivity.
  - vm_compute. reflexivity.
  - vm_compute. lia.
  - exists h', W. split; [exact Hchain|]. exact Hstr.
Defined.

(** ** One bound proxy per access *)

(** X14: every binding makes a bound proxy of its own.  Two successive
    bindings of one generic or method proxy give two distinct objects,
    each holding the receiver of its own access; the second binding
    leaves the first bound proxy and the parent exactly as they were. *)
Theorem each_binding_makes_its_own_bound_proxy
    (host_bind : heap → value → value → value → outcome (heap * value))
    (fuel1 fuel2 : nat) (h h1 h2 : heap)
    (parent i1 o1 i2 o2 B1 B2 W wrapper params : value)
    (l : loc) (c : wrapper_class) (d : gmap string value) :
  keeps_proxies host_bind →
  proxy_at h parent = Some (l, c, d) →
  c = GenericWrapper ∨ c = MethodWrapper →
  d !! "_self_wrapped" = Some W →
  d !! "_self_wrapper" = Some wrapper →
  d !! "_self_params" = Some params →
  py_descr_get host_bind fuel1 h parent i1 o1 = Ok (h1, B1) →
  py_descr_get host_bind fuel2 h1 parent i2 o2 = Ok (h2, B2) →
  ∃ b1 b2 d1 d2,
    B1 = VRef b1 ∧ B2 = VRef b2 ∧
    b1 ≠ b2 ∧ b1 ≠ l ∧ b2 ≠ l ∧
    h1 !! b1 = Some (Proxy (bound_class c) d1) ∧
    h2 !! b1 = Some (Proxy (bound_class c) d1) ∧
    h2 !! b2 = Some (Proxy (bound_class c) d2) ∧
    h2 !! l = Some (Proxy c d) ∧
    d1 !! "_self_instance" = Some i1 ∧
    d2 !! "_self_instance" = Some i2.
Proof.
  intros Hhost Hparent Hc HW Hcb Hps Hget1 Hget2.
  pose proof (proxy_at_lookup _ _ _ _ _ Hparent) as [-> Hl].
  destruct (binding_state host_bind fuel1 h h1 (VRef l) i1 o1 B1 W wrapper params
              l c d Hhost Hparent Hc HW Hcb Hps Hget1)
    as (f1 & ha & da & b1 & d1 & _ & _ & -> & Hb1 & Hl1 & Hi1 & _ & _ & _ & _ & Hfresh1).
  assert (proxy_at h1 (VRef l) = Some (l, c, d)) as Hparent1
    by (unfold proxy_at; by rewrite Hl1).
  destruct (binding_state host_bind fuel2 h1 h2 (VRef l) i2 o2 B2 W wrapper params
              l c d Hhost Hparent1 Hc HW Hcb Hps Hget2)
    as (f2 & hb & db & b2 & d2 & _ & _ & -> & Hb2 & Hl2 & Hi2 & _ & _ & _ & _ & Hfresh2).
  destruct (Hfresh1 l c d Hl) as [Hlb1 _].
  destruct (Hfresh2 l c d Hl1) as [Hlb2 _].
  destruct (Hfresh2 b1 _ d1 Hb1) as [Hb12 Hb1'].
  exists b1, b2, d1, d2. repeat split; done.
Qed.

Lemma each_binding_makes_its_own_bound_proxy_witness :
  ∃ b1 b2,
    value_of bound_generic_f = VRef b1 ∧
    value_of (py_descr_get bind_to_self depth (heap_of bound_generic_f)
                (value_of generic_f) (VRef instance_loc) (VRef owner_loc)) = VRef b2 ∧
    b1 ≠ b2.
Proof.
  assert (∃ l d, proxy_at (heap_of generic_f) (value_of generic_f)
                   = Some (l, GenericWrapper, d) ∧
                 d !! "_self_wrapped" = Some (VRef f_loc) ∧
                 d !! "_self_wrapper" = Some (VRef callback_loc) ∧
                 d !! "_self_params" = Some (VRef config_loc))
    as (l & d & Hp & Hw & Hcb & Hps).
  { eexists _, _. split; [vm_compute; reflexivity|].
    split; [vm_compute; reflexivity|]. split; vm_compute; reflexivity. }
  set (second := py_descr_get bind_to_self depth (heap_of bound_generic_f)
                   (value_of generic_f) (VRef instance_loc) (VRef owner_loc)).
  destruct (each_binding_makes_its_own_bound_proxy bind_to_self depth depth
              (heap_of generic_f) (heap_of bound_generic_f) (heap_of second)
              (value_of generic_f) VNone (VRef owner_loc) (VRef instance_loc) (VRef owner_loc)
              (value_of bound_generic_f) (value_of second)
              (VRef f_loc) (VRef callback_loc) (VRef config_loc) l GenericWrapper d)
    as (b1 & b2 & d1 & d2 & H1 & H2 & Hne & _).
  - exact bind_to_self_keeps_proxies.
  - exact Hp.
  - left. reflexivity.
  - exact Hw.
  - exact Hcb.
  - exact Hps.
  - vm_compute. reflexivity.
  - vm_compute. reflexivity.
  - exists b1, b2. split; [exact H1|]. split; [exact H2|]. exact Hne.
Defined.
